(** * Status probes, the state-transition waiter and the SageMaker model
      resource of the AWS provider

    The development embeds
    - the status-refresh probes of [aws/internal/service/transfer/waiter/status.go]
      and [internal/service/rds/status.go],
    - the container expand/flatten helpers and the read handler of
      [aws/resource_aws_sagemaker_model.go],
    - the generic state-transition waiter described by the design document.

    Go values are modelled as follows: a [*string] is an [option string], a
    pointer to an SDK struct is an [option] of a record, [error] is an
    [option Err] with [None] for [nil], [map[string]interface{}] is a
    [gmap string Value], and a nil-pointer dereference or a failed type
    assertion is an explicit panic outcome. *)

From stdpp Require Import base option list strings gmap fin_maps.
From Stdlib Require Import Lia.

Open Scope string_scope.

(** ** Go errors *)

(** The error values the handlers meet: plain errors, the SDK's
    [resource.NotFoundError], the AWS SDK's [awserr.Error] (code and
    message), and errors wrapped by [fmt.Errorf("...%w", err)]. *)
Inductive Err : Type :=
| ErrNew (msg : string)
| ErrNotFound (msg : string)
| ErrAws (code message : string)
| ErrWrap (prefix : string) (inner : Err).

(** Go's [error] interface value; [None] is [nil]. *)
Definition error : Type := option Err.

#[global] Instance Err_eq_dec : EqDecision Err.
Proof. solve_decision. Defined.

(** [strings.Contains]. *)
Fixpoint hasPrefix (p s : string) : bool :=
  match p, s with
  | EmptyString, _ => true
  | String a p', String b s' => if Ascii.eqb a b then hasPrefix p' s' else false
  | String _ _, EmptyString => false
  end.

Fixpoint Contains (s substr : string) : bool :=
  if hasPrefix substr s then true
  else match s with
       | EmptyString => false
       | String _ s' => Contains s' substr
       end.

Module aws.
(** [aws.StringValue]: the pointed-to string, or the empty string for nil. *)
Definition StringValue (p : option string) : string :=
  match p with
  | Some s => s
  | None => ""
  end.

(** [aws.String]. *)
Definition String (s : string) : option string := Some s.

(** [aws.StringValueMap]: nil entries are skipped. *)
Definition StringValueMap (src : gmap string (option string)) : gmap string string :=
  omap id src.
End aws.

Module tfresource.
(** [tfresource.NotFound] on a non-nil error: [errors.As] looks for a
    [resource.NotFoundError] along the chain of wrapped errors. *)
Fixpoint isNotFoundError (e : Err) : bool :=
  match e with
  | ErrNotFound _ => true
  | ErrWrap _ inner => isNotFoundError inner
  | ErrNew _ | ErrAws _ _ => false
  end.
End tfresource.

(** [isAWSErr(err, code, message)] on a non-nil error: [errors.As] finds an
    [awserr.Error] whose code is [code] and whose message contains
    [message]. *)
Fixpoint awsErrMatches (e : Err) (code message : string) : bool :=
  match e with
  | ErrAws c m => bool_decide (c = code) && Contains m message
  | ErrWrap _ inner => awsErrMatches inner code message
  | ErrNew _ | ErrNotFound _ => false
  end.

(** ** SDK representations returned by the finders *)

Module transfer.
Record DescribedServer : Type := {
  Arn : option string;
  ServerId : option string;
  State : option string
}.

(** A described user has no lifecycle field at all. *)
Record DescribedUser : Type := {
  UserArn : option string;
  HomeDirectory : option string;
  Role : option string;
  UserName : option string
}.
End transfer.

Module rds.
Record EventSubscription : Type := {
  CustSubscriptionId : option string;
  SnsTopicArn : option string;
  EventSubscriptionStatus : option string
}.

Record DBProxyEndpoint : Type := {
  DBProxyEndpointName : option string;
  DBProxyName : option string;
  Endpoint : option string;
  DBProxyEndpointStatus : option string
}.

Record DBClusterRole : Type := {
  RoleArn : option string;
  FeatureName : option string;
  DBClusterRoleStatus : option string
}.
End rds.

(** The dynamic contents of the [interface{}] a probe hands to the waiter:
    a typed pointer, which may itself be a nil pointer. *)
Inductive Representation : Type :=
| RServer (output : option transfer.DescribedServer)
| RUser (output : option transfer.DescribedUser)
| REventSubscription (output : option rds.EventSubscription)
| RDBProxyEndpoint (output : option rds.DBProxyEndpoint)
| RDBClusterRole (output : option rds.DBClusterRole).

Definition isNilPointer (r : Representation) : bool :=
  match r with
  | RServer None | RUser None | REventSubscription None
  | RDBProxyEndpoint None | RDBClusterRole None => true
  | _ => false
  end.

(** The [*string] fields of the struct behind a representation. *)
Definition stringFields (r : Representation) : list (option string) :=
  match r with
  | RServer (Some o) => [transfer.Arn o; transfer.ServerId o; transfer.State o]
  | RUser (Some o) =>
      [transfer.UserArn o; transfer.HomeDirectory o; transfer.Role o; transfer.UserName o]
  | REventSubscription (Some o) =>
      [rds.CustSubscriptionId o; rds.SnsTopicArn o; rds.EventSubscriptionStatus o]
  | RDBProxyEndpoint (Some o) =>
      [rds.DBProxyEndpointName o; rds.DBProxyName o; rds.Endpoint o;
       rds.DBProxyEndpointStatus o]
  | RDBClusterRole (Some o) =>
      [rds.RoleArn o; rds.FeatureName o; rds.DBClusterRoleStatus o]
  | _ => []
  end.

(** The lifecycle field ([State] or [Status]) of a representation, when the
    struct has one. *)
Definition lifecycleField (r : Representation) : option (option string) :=
  match r with
  | RServer (Some o) => Some (transfer.State o)
  | REventSubscription (Some o) => Some (rds.EventSubscriptionStatus o)
  | RDBProxyEndpoint (Some o) => Some (rds.DBProxyEndpointStatus o)
  | RDBClusterRole (Some o) => Some (rds.DBClusterRoleStatus o)
  | _ => None
  end.

(** What one call of a [resource.StateRefreshFunc] does: it returns the
    triple [(interface{}, string, error)], or the goroutine panics. *)
Inductive RefreshResult : Type :=
| Returned (rep : option Representation) (state : string) (err : error)
| Panicked.

Definition resultRep (r : RefreshResult) : option (option Representation) :=
  match r with Returned rep _ _ => Some rep | Panicked => None end.

Definition resultState (r : RefreshResult) : option string :=
  match r with Returned _ s _ => Some s | Panicked => None end.

Definition resultErr (r : RefreshResult) : option error :=
  match r with Returned _ _ e => Some e | Panicked => None end.

(** ** The status-refresh probes *)

Definition userStateExists : string := "exists".
Definition proxyEndpointStatusNotFound : string := "NotFound".
Definition proxyEndpointStatusUnknown : string := "Unknown".

Section Probes.
(** [World] is the state of the remote API that one finder call observes;
    [Conn] is the SDK client a probe captures. *)
Context {World Conn : Type}.

(** The classification of non-nil errors by [tfresource.NotFound]. *)
Variable notFoundError : Err → bool.

(** The finder package is outside the files studied: each finder is a
    remote read that yields Go's [(output, err)] pair. *)
Variable ServerByID : Conn → string → World → option transfer.DescribedServer * error.
Variable UserByServerIDAndUserName :
  Conn → string → string → World → option transfer.DescribedUser * error.
Variable FindEventSubscriptionByID :
  Conn → string → World → option rds.EventSubscription * error.
Variable FindDBProxyEndpoint :
  Conn → string → World → option rds.DBProxyEndpoint * error.
Variable FindDBClusterRoleByDBClusterIDAndRoleARN :
  Conn → string → string → World → option rds.DBClusterRole * error.

(** [tfresource.NotFound(err)]; a nil error is never not-found. *)
Definition NotFound (err : error) : bool :=
  match err with
  | Some e => notFoundError e
  | None => false
  end.

(** [func() (interface{}, string, error)], called in some state of the
    remote API. *)
Definition StateRefreshFunc : Type := World → RefreshResult.

Definition ServerState (conn : Conn) (id : string) : StateRefreshFunc :=
  λ w,
    let '(output, err) := ServerByID conn id w in
    if NotFound err then Returned None "" None
    else if bool_decide (err ≠ None) then Returned None "" err
    else match output with
         | Some o => Returned (Some (RServer output)) (aws.StringValue (transfer.State o)) None
         | None => Panicked
         end.

Definition UserState (conn : Conn) (serverID userName : string) : StateRefreshFunc :=
  λ w,
    let '(output, err) := UserByServerIDAndUserName conn serverID userName w in
    if NotFound err then Returned None "" None
    else if bool_decide (err ≠ None) then Returned None "" err
    else Returned (Some (RUser output)) userStateExists None.

Definition statusEventSubscription (conn : Conn) (id : string) : StateRefreshFunc :=
  λ w,
    let '(output, err) := FindEventSubscriptionByID conn id w in
    if NotFound err then Returned None "" None
    else if bool_decide (err ≠ None) then Returned None "" err
    else match output with
         | Some o =>
             Returned (Some (REventSubscription output))
                      (aws.StringValue (rds.EventSubscriptionStatus o)) None
         | None => Panicked
         end.

Definition statusDBProxyEndpoint (conn : Conn) (id : string) : StateRefreshFunc :=
  λ w,
    let '(output, err) := FindDBProxyEndpoint conn id w in
    if bool_decide (err ≠ None) then Returned None proxyEndpointStatusUnknown err
    else match output with
         | None => Returned None proxyEndpointStatusNotFound None
         | Some o =>
             Returned (Some (RDBProxyEndpoint output))
                      (aws.StringValue (rds.DBProxyEndpointStatus o)) None
         end.

Definition statusDBClusterRole (conn : Conn) (dbClusterID roleARN : string)
  : StateRefreshFunc :=
  λ w,
    let '(output, err) := FindDBClusterRoleByDBClusterIDAndRoleARN conn dbClusterID roleARN w in
    if NotFound err then Returned None "" None
    else if bool_decide (err ≠ None) then Returned None "" err
    else match output with
         | Some o =>
             Returned (Some (RDBClusterRole output))
                      (aws.StringValue (rds.DBClusterRoleStatus o)) None
         | None => Panicked
         end.

(** The five probe constructors applied to what they capture: the client
    connection and the resource identifiers, nothing else. *)
Inductive Probe : Type :=
| ProbeServerState (conn : Conn) (id : string)
| ProbeUserState (conn : Conn) (serverID userName : string)
| ProbeEventSubscription (conn : Conn) (id : string)
| ProbeDBProxyEndpoint (conn : Conn) (id : string)
| ProbeDBClusterRole (conn : Conn) (dbClusterID roleARN : string).

(** The closure a probe constructor returns. *)
Definition closure (p : Probe) : StateRefreshFunc :=
  match p with
  | ProbeServerState conn id => ServerState conn id
  | ProbeUserState conn serverID userName => UserState conn serverID userName
  | ProbeEventSubscription conn id => statusEventSubscription conn id
  | ProbeDBProxyEndpoint conn id => statusDBProxyEndpoint conn id
  | ProbeDBClusterRole conn dbClusterID roleARN =>
      statusDBClusterRole conn dbClusterID roleARN
  end.

(** The response of the probe's finder in a given state of the remote
    API, with the output pointer boxed. *)
Definition finderOutcome (p : Probe) (w : World) : Representation * error :=
  match p with
  | ProbeServerState conn id =>
      let '(o, e) := ServerByID conn id w in (RServer o, e)
  | ProbeUserState conn serverID userName =>
      let '(o, e) := UserByServerIDAndUserName conn serverID userName w in (RUser o, e)
  | ProbeEventSubscription conn id =>
      let '(o, e) := FindEventSubscriptionByID conn id w in (REventSubscription o, e)
  | ProbeDBProxyEndpoint conn id =>
      let '(o, e) := FindDBProxyEndpoint conn id w in (RDBProxyEndpoint o, e)
  | ProbeDBClusterRole conn dbClusterID roleARN =>
      let '(o, e) := FindDBClusterRoleByDBClusterIDAndRoleARN conn dbClusterID roleARN w in
      (RDBClusterRole o, e)
  end.

(** Which finder outcomes a probe classifies as not-found: the proxy
    endpoint probe reads a nil output with a nil error as not-found, the
    other four ask [tfresource.NotFound] about the error. *)
Definition classifiedNotFound (p : Probe) (outcome : Representation * error) : bool :=
  match p with
  | ProbeDBProxyEndpoint _ _ =>
      bool_decide (outcome.2 = None) && isNilPointer outcome.1
  | _ => NotFound outcome.2
  end.

(** The finder succeeded with a representation: nil error, non-nil
    output. *)
Definition succeededWith (outcome : Representation * error) (rep : Representation) : Prop :=
  outcome = (rep, None) ∧ isNilPointer rep = false.

Ltac unfold_probes :=
  unfold ServerState, UserState, statusEventSubscription, statusDBProxyEndpoint,
    statusDBClusterRole, NotFound in *.

(** C1. For each of the five probes, when the finder outcome is one the
    probe classifies as not-found, the closure returns (it does not
    panic) and the error it returns is nil. *)
Theorem not_found_returns_nil_error (p : Probe) (w : World) :
  classifiedNotFound p (finderOutcome p w) = true →
  resultErr (closure p w) = Some None.
Proof.
  intros H.
  destruct p; simpl in *; unfold ServerState, UserState, statusEventSubscription,
    statusDBProxyEndpoint, statusDBClusterRole.
  - destruct (ServerByID conn id w) as [o e]; simpl in *. by rewrite H.
  - destruct (UserByServerIDAndUserName conn serverID userName w) as [o e]; simpl in *.
    by rewrite H.
  - destruct (FindEventSubscriptionByID conn id w) as [o e]; simpl in *. by rewrite H.
  - destruct (FindDBProxyEndpoint conn id w) as [o e]; simpl in *.
    apply andb_true_iff in H as [He Ho]. apply bool_decide_eq_true in He. subst e.
    destruct o; [discriminate | done].
  - destruct (FindDBClusterRoleByDBClusterIDAndRoleARN conn dbClusterID roleARN w)
      as [o e]; simpl in *.
    by rewrite H.
Qed.

(** C2. For each of the five probes, a finder error that the probe does not
    classify as not-found comes back from the closure as the very same error
    value, next to a nil representation; the closure made its one finder call
    and returns. *)
Theorem other_errors_are_propagated (p : Probe) (w : World) (rep : Representation) (e : Err) :
  finderOutcome p w = (rep, Some e) →
  classifiedNotFound p (rep, Some e) = false →
  resultRep (closure p w) = Some None ∧ resultErr (closure p w) = Some (Some e).
Proof.
  intros Hout Hclass.
  destruct p; simpl in *; unfold_probes.
  - destruct (ServerByID conn id w) as [o e']; simplify_eq. by rewrite Hclass.
  - destruct (UserByServerIDAndUserName conn serverID userName w) as [o e']; simplify_eq.
    by rewrite Hclass.
  - destruct (FindEventSubscriptionByID conn id w) as [o e']; simplify_eq. by rewrite Hclass.
  - destruct (FindDBProxyEndpoint conn id w) as [o e']; simplify_eq. done.
  - destruct (FindDBClusterRoleByDBClusterIDAndRoleARN conn dbClusterID roleARN w)
      as [o e']; simplify_eq.
    by rewrite Hclass.
Qed.

(** C3, as the code has it. A not-found outcome makes the closure return the
    empty token for [ServerState], [UserState], [statusEventSubscription] and
    [statusDBClusterRole], and the token ["NotFound"] for
    [statusDBProxyEndpoint]. *)
Theorem not_found_token (p : Probe) (w : World) :
  classifiedNotFound p (finderOutcome p w) = true →
  resultState (closure p w) =
    Some match p with
         | ProbeDBProxyEndpoint _ _ => proxyEndpointStatusNotFound
         | _ => ""
         end.
Proof.
  intros H.
  destruct p; simpl in *; unfold_probes.
  - destruct (ServerByID conn id w) as [o e]; simpl in *. by rewrite H.
  - destruct (UserByServerIDAndUserName conn serverID userName w) as [o e]; simpl in *.
    by rewrite H.
  - destruct (FindEventSubscriptionByID conn id w) as [o e]; simpl in *. by rewrite H.
  - destruct (FindDBProxyEndpoint conn id w) as [o e]; simpl in *.
    apply andb_true_iff in H as [He Ho]. apply bool_decide_eq_true in He. subst e.
    destruct o; [discriminate | done].
  - destruct (FindDBClusterRoleByDBClusterIDAndRoleARN conn dbClusterID roleARN w)
      as [o e]; simpl in *.
    by rewrite H.
Qed.

(** C4, as the code has it. When the finder succeeds with a representation,
    the closure returns that very representation with a nil error; the token
    is the string value of the representation's [State] or [Status] field for
    [ServerState], [statusEventSubscription], [statusDBProxyEndpoint] and
    [statusDBClusterRole], and the constant ["exists"] for [UserState]. *)
Theorem success_returns_representation (p : Probe) (w : World) (rep : Representation) :
  succeededWith (finderOutcome p w) rep →
  ∃ tok, closure p w = Returned (Some rep) tok None ∧
    match p with
    | ProbeUserState _ _ _ => tok = userStateExists
    | _ => ∃ field, lifecycleField rep = Some field ∧ tok = aws.StringValue field
    end.
Proof.
  intros [Hout Hnil].
  destruct p; simpl in *; unfold_probes.
  - destruct (ServerByID conn id w) as [o e]; simplify_eq.
    destruct o as [o|]; [|discriminate]. simpl. eauto.
  - destruct (UserByServerIDAndUserName conn serverID userName w) as [o e]; simplify_eq.
    simpl. eauto.
  - destruct (FindEventSubscriptionByID conn id w) as [o e]; simplify_eq.
    destruct o as [o|]; [|discriminate]. simpl. eauto.
  - destruct (FindDBProxyEndpoint conn id w) as [o e]; simplify_eq.
    destruct o as [o|]; [|discriminate]. simpl. eauto.
  - destruct (FindDBClusterRoleByDBClusterIDAndRoleARN conn dbClusterID roleARN w)
      as [o e]; simplify_eq.
    destruct o as [o|]; [|discriminate]. simpl. eauto.
Qed.

(** The result of a closure depends on the remote state through the
    finder's response only. *)
Lemma closure_same_response (p : Probe) (w1 w2 : World) :
  finderOutcome p w1 = finderOutcome p w2 →
  closure p w1 = closure p w2.
Proof.
  intros H.
  destruct p; simpl in *; unfold_probes.
  - destruct (ServerByID conn id w1), (ServerByID conn id w2); by simplify_eq.
  - destruct (UserByServerIDAndUserName conn serverID userName w1),
      (UserByServerIDAndUserName conn serverID userName w2); by simplify_eq.
  - destruct (FindEventSubscriptionByID conn id w1), (FindEventSubscriptionByID conn id w2);
      by simplify_eq.
  - destruct (FindDBProxyEndpoint conn id w1), (FindDBProxyEndpoint conn id w2);
      by simplify_eq.
  - destruct (FindDBClusterRoleByDBClusterIDAndRoleARN conn dbClusterID roleARN w1),
      (FindDBClusterRoleByDBClusterIDAndRoleARN conn dbClusterID roleARN w2); by simplify_eq.
Qed.

(** *** Further facts about the probes *)

Ltac probe_iff :=
  repeat case_bool_decide; repeat case_match;
  split; intros; destruct_and?; simplify_eq; done.

(** The probes that read a field of the finder's output without first
    checking the pointer. *)
Definition dereferencesUnchecked (p : Probe) : bool :=
  match p with
  | ProbeServerState _ _ | ProbeEventSubscription _ _ | ProbeDBClusterRole _ _ _ => true
  | ProbeUserState _ _ _ | ProbeDBProxyEndpoint _ _ => false
  end.

(** X1. A closure never hands back a representation together with an
    error: when the representation is non-nil, the error is nil and the
    representation is the finder's own output, returned by a finder call
    that did not fail. *)
Theorem representation_excludes_error (p : Probe) (w : World)
    (rep : Representation) (tok : string) (err : error) :
  closure p w = Returned (Some rep) tok err →
  err = None ∧ finderOutcome p w = (rep, None).
Proof.
  destruct p; simpl; unfold_probes.
  - destruct (ServerByID conn id w) as [[o|] [e|]]; simpl;
      repeat case_match; intros; by simplify_eq.
  - destruct (UserByServerIDAndUserName conn serverID userName w) as [[o|] [e|]]; simpl;
      repeat case_match; intros; by simplify_eq.
  - destruct (FindEventSubscriptionByID conn id w) as [[o|] [e|]]; simpl;
      repeat case_match; intros; by simplify_eq.
  - destruct (FindDBProxyEndpoint conn id w) as [[o|] [e|]]; simpl;
      repeat case_match; intros; by simplify_eq.
  - destruct (FindDBClusterRoleByDBClusterIDAndRoleARN conn dbClusterID roleARN w)
      as [[o|] [e|]]; simpl; repeat case_match; intros; by simplify_eq.
Qed.

(** X2. A closure panics exactly when the finder breaks its convention by
    returning a nil output with a nil error, and the probe is one of the
    three that read [State] or [Status] without a nil check; [UserState]
    and [statusDBProxyEndpoint] never panic. *)
Theorem closure_panics_iff (p : Probe) (w : World) :
  closure p w = Panicked ↔
    dereferencesUnchecked p = true
    ∧ (finderOutcome p w).2 = None
    ∧ isNilPointer (finderOutcome p w).1 = true.
Proof.
  destruct p; simpl; unfold_probes.
  - destruct (ServerByID conn id w) as [[o|] [e|]]; simpl;
      probe_iff.
  - destruct (UserByServerIDAndUserName conn serverID userName w) as [[o|] [e|]]; simpl;
      probe_iff.
  - destruct (FindEventSubscriptionByID conn id w) as [[o|] [e|]]; simpl;
      probe_iff.
  - destruct (FindDBProxyEndpoint conn id w) as [[o|] [e|]]; simpl;
      probe_iff.
  - destruct (FindDBClusterRoleByDBClusterIDAndRoleARN conn dbClusterID roleARN w)
      as [[o|] [e|]]; simpl; probe_iff.
Qed.

(** X3. [statusDBProxyEndpoint] never swallows a finder error: whatever
    the error is, a [resource.NotFoundError] included, it comes back
    unchanged with a nil representation and the token ["Unknown"]. *)
Theorem proxy_endpoint_propagates_every_error (conn : Conn) (id : string) (w : World)
    (rep : Representation) (e : Err) :
  finderOutcome (ProbeDBProxyEndpoint conn id) w = (rep, Some e) →
  closure (ProbeDBProxyEndpoint conn id) w
    = Returned None proxyEndpointStatusUnknown (Some e).
Proof.
  simpl. unfold_probes.
  destruct (FindDBProxyEndpoint conn id w) as [o e']. intros; by simplify_eq.
Qed.

(** *** Closures as effectful code

    Go closes over variables, not values: the body of a closure could assign
    to what it captured and so carry state from one call to the next.  The
    bodies of the five closures are embedded a second time as programs over
    the effects a body can have (a call of a finder, an assignment to the
    captured variables), and run with the captured variables threaded
    through. *)

(** The calls of the finder package, with their arguments. *)
Inductive FinderCall : Type → Type :=
| CallServerByID (conn : Conn) (id : string)
    : FinderCall transfer.DescribedServer
| CallUserByServerIDAndUserName (conn : Conn) (serverID userName : string)
    : FinderCall transfer.DescribedUser
| CallFindEventSubscriptionByID (conn : Conn) (id : string)
    : FinderCall rds.EventSubscription
| CallFindDBProxyEndpoint (conn : Conn) (id : string)
    : FinderCall rds.DBProxyEndpoint
| CallFindDBClusterRoleByDBClusterIDAndRoleARN (conn : Conn) (dbClusterID roleARN : string)
    : FinderCall rds.DBClusterRole.

(** What the remote API answers to a finder call. *)
Definition answer {T : Type} (call : FinderCall T) (w : World) : option T * error :=
  match call in FinderCall T return option T * error with
  | CallServerByID conn id => ServerByID conn id w
  | CallUserByServerIDAndUserName conn serverID userName =>
      UserByServerIDAndUserName conn serverID userName w
  | CallFindEventSubscriptionByID conn id => FindEventSubscriptionByID conn id w
  | CallFindDBProxyEndpoint conn id => FindDBProxyEndpoint conn id w
  | CallFindDBClusterRoleByDBClusterIDAndRoleARN conn dbClusterID roleARN =>
      FindDBClusterRoleByDBClusterIDAndRoleARN conn dbClusterID roleARN w
  end.

(** The body of a closure: it returns, or calls a finder and goes on with
    the response, or assigns to its captured variables and goes on.  The
    captured variables of a probe closure are the arguments of its
    constructor, that is, a [Probe]. *)
Inductive Body (A : Type) : Type :=
| Return (a : A)
| Call (T : Type) (call : FinderCall T) (k : option T * error → Body A)
| Assign (captured : Probe) (k : Body A).

Arguments Return {A} a.
Arguments Call {A T} call k.
Arguments Assign {A} captured k.

Definition ServerStateBody (conn : Conn) (id : string) : Body RefreshResult :=
  Call (CallServerByID conn id) (λ '(output, err),
    if NotFound err then Return (Returned None "" None)
    else if bool_decide (err ≠ None) then Return (Returned None "" err)
    else match output with
         | Some o =>
             Return (Returned (Some (RServer output))
                       (aws.StringValue (transfer.State o)) None)
         | None => Return Panicked
         end).

Definition UserStateBody (conn : Conn) (serverID userName : string) : Body RefreshResult :=
  Call (CallUserByServerIDAndUserName conn serverID userName) (λ '(output, err),
    if NotFound err then Return (Returned None "" None)
    else if bool_decide (err ≠ None) then Return (Returned None "" err)
    else Return (Returned (Some (RUser output)) userStateExists None)).

Definition statusEventSubscriptionBody (conn : Conn) (id : string) : Body RefreshResult :=
  Call (CallFindEventSubscriptionByID conn id) (λ '(output, err),
    if NotFound err then Return (Returned None "" None)
    else if bool_decide (err ≠ None) then Return (Returned None "" err)
    else match output with
         | Some o =>
             Return (Returned (Some (REventSubscription output))
                       (aws.StringValue (rds.EventSubscriptionStatus o)) None)
         | None => Return Panicked
         end).

Definition statusDBProxyEndpointBody (conn : Conn) (id : string) : Body RefreshResult :=
  Call (CallFindDBProxyEndpoint conn id) (λ '(output, err),
    if bool_decide (err ≠ None) then Return (Returned None proxyEndpointStatusUnknown err)
    else match output with
         | None => Return (Returned None proxyEndpointStatusNotFound None)
         | Some o =>
             Return (Returned (Some (RDBProxyEndpoint output))
                       (aws.StringValue (rds.DBProxyEndpointStatus o)) None)
         end).

Definition statusDBClusterRoleBody (conn : Conn) (dbClusterID roleARN : string)
  : Body RefreshResult :=
  Call (CallFindDBClusterRoleByDBClusterIDAndRoleARN conn dbClusterID roleARN)
    (λ '(output, err),
      if NotFound err then Return (Returned None "" None)
      else if bool_decide (err ≠ None) then Return (Returned None "" err)
      else match output with
           | Some o =>
               Return (Returned (Some (RDBClusterRole output))
                         (aws.StringValue (rds.DBClusterRoleStatus o)) None)
           | None => Return Panicked
           end).

(** The body that runs when the closure is called, given the current
    values of its captured variables. *)
Definition body (captured : Probe) : Body RefreshResult :=
  match captured with
  | ProbeServerState conn id => ServerStateBody conn id
  | ProbeUserState conn serverID userName => UserStateBody conn serverID userName
  | ProbeEventSubscription conn id => statusEventSubscriptionBody conn id
  | ProbeDBProxyEndpoint conn id => statusDBProxyEndpointBody conn id
  | ProbeDBClusterRole conn dbClusterID roleARN =>
      statusDBClusterRoleBody conn dbClusterID roleARN
  end.

(** One run of a body: what it returns, the values of the captured
    variables afterwards, and the finder calls it made, in order. *)
Record Run (A : Type) : Type := {
  returned : A;
  capturedAfter : Probe;
  finderCalls : list (sigT FinderCall)
}.

Arguments returned {A} r.
Arguments capturedAfter {A} r.
Arguments finderCalls {A} r.

Fixpoint exec {A : Type} (b : Body A) (captured : Probe) (w : World) : Run A :=
  match b with
  | Return a => {| returned := a; capturedAfter := captured; finderCalls := [] |}
  | Call call k =>
      let r := exec (k (answer call w)) captured w in
      {| returned := returned r; capturedAfter := capturedAfter r;
         finderCalls := existT _ call :: finderCalls r |}
  | Assign captured' k => exec k captured' w
  end.

(** One call of the closure. *)
Definition invoke (captured : Probe) (w : World) : Run RefreshResult :=
  exec (body captured) captured w.

(** The captured variables after a series of calls, one in each of the
    given states of the remote API. *)
Fixpoint capturedAfterCalls (captured : Probe) (history : list World) : Probe :=
  match history with
  | [] => captured
  | w :: rest => capturedAfterCalls (capturedAfter (invoke captured w)) rest
  end.

(** The single finder call a probe is built around, on the connection and
    identifiers handed to its constructor. *)
Definition finderCallOf (p : Probe) : sigT FinderCall :=
  match p with
  | ProbeServerState conn id => existT _ (CallServerByID conn id)
  | ProbeUserState conn serverID userName =>
      existT _ (CallUserByServerIDAndUserName conn serverID userName)
  | ProbeEventSubscription conn id => existT _ (CallFindEventSubscriptionByID conn id)
  | ProbeDBProxyEndpoint conn id => existT _ (CallFindDBProxyEndpoint conn id)
  | ProbeDBClusterRole conn dbClusterID roleARN =>
      existT _ (CallFindDBClusterRoleByDBClusterIDAndRoleARN conn dbClusterID roleARN)
  end.

(** A call of the closure returns what [closure] computes, leaves the
    captured variables as they were and makes one finder call. *)
Lemma invoke_closure (p : Probe) (w : World) :
  invoke p w = {| returned := closure p w; capturedAfter := p;
                  finderCalls := [finderCallOf p] |}.
Proof.
  destruct p; unfold invoke; simpl; unfold_probes.
  - destruct (ServerByID conn id w) as [[o|] [e|]]; simpl; by repeat case_match.
  - destruct (UserByServerIDAndUserName conn serverID userName w) as [[o|] [e|]]; simpl;
      by repeat case_match.
  - destruct (FindEventSubscriptionByID conn id w) as [[o|] [e|]]; simpl;
      by repeat case_match.
  - destruct (FindDBProxyEndpoint conn id w) as [[o|] [e|]]; simpl; by repeat case_match.
  - destruct (FindDBClusterRoleByDBClusterIDAndRoleARN conn dbClusterID roleARN w)
      as [[o|] [e|]]; simpl; by repeat case_match.
Qed.

Lemma capturedAfterCalls_same (p : Probe) (history : list World) :
  capturedAfterCalls p history = p.
Proof.
  induction history as [|w rest IH]; simpl; [done |].
  by rewrite invoke_closure.
Qed.

(** C8. Whatever calls came before, a call of a probe closure finds the
    variables it captured (the connection and the identifiers handed to the
    constructor) as they were, makes one finder call on them and assigns to
    nothing; and two calls, each after a history of its own, that observe
    identical finder responses return identical triples. *)
Theorem closure_stateless_deterministic (p : Probe) (history1 history2 : list World)
    (w1 w2 : World) :
  finderOutcome p w1 = finderOutcome p w2 →
  capturedAfterCalls p history1 = p
  ∧ capturedAfter (invoke (capturedAfterCalls p history1) w1) = p
  ∧ finderCalls (invoke (capturedAfterCalls p history1) w1) = [finderCallOf p]
  ∧ returned (invoke (capturedAfterCalls p history1) w1) = closure p w1
  ∧ returned (invoke (capturedAfterCalls p history1) w1)
    = returned (invoke (capturedAfterCalls p history2) w2).
Proof.
  intros Hsame. rewrite !capturedAfterCalls_same, !invoke_closure. simpl.
  split_and!; try done. by apply closure_same_response.
Qed.

(** The model tells a stateful body apart: one that rebinds the captured
    identifier before the finder call leaves other captured variables
    behind. *)
Example assignment_is_observed (conn : Conn) (w : World) :
  capturedAfter (exec (Assign (ProbeServerState conn "s-02") (ServerStateBody conn "s-02"))
                      (ProbeServerState conn "s-01") w)
    = ProbeServerState conn "s-02".
Proof.
  simpl. destruct (ServerByID conn "s-02" w) as [[o|] [e|]]; simpl; by repeat case_match.
Qed.

End Probes.

Arguments returned {Conn A} r.
Arguments capturedAfter {Conn A} r.
Arguments finderCalls {Conn A} r.

(** ** An in-memory remote API

    A test double for the finder package: the remote API is a set of tables,
    and an outage makes every call fail.  The finders that follow the
    [tfresource] convention report a missing row as a
    [resource.NotFoundError]; [FindDBProxyEndpoint] reports it as a nil
    output with a nil error. *)
Module InMemory.
Record Remote : Type := {
  servers : gmap string transfer.DescribedServer;
  users : gmap (string * string) transfer.DescribedUser;
  eventSubscriptions : gmap string rds.EventSubscription;
  proxyEndpoints : gmap string rds.DBProxyEndpoint;
  clusterRoles : gmap (string * string) rds.DBClusterRole;
  outage : error
}.

Definition find {K T : Type} `{Countable K}
    (table : gmap K T) (key : K) (down missing : error) : option T * error :=
  match down with
  | Some e => (None, Some e)
  | None => match table !! key with
            | Some o => (Some o, None)
            | None => (None, missing)
            end
  end.

Definition missingRow : error := Some (ErrNotFound "couldn't find resource").

Definition ServerByID (_ : unit) (id : string) (w : Remote) :=
  find (servers w) id (outage w) missingRow.
Definition UserByServerIDAndUserName (_ : unit) (serverID userName : string) (w : Remote) :=
  find (users w) (serverID, userName) (outage w) missingRow.
Definition FindEventSubscriptionByID (_ : unit) (id : string) (w : Remote) :=
  find (eventSubscriptions w) id (outage w) missingRow.
Definition FindDBProxyEndpoint (_ : unit) (id : string) (w : Remote) :=
  find (proxyEndpoints w) id (outage w) None.
Definition FindDBClusterRoleByDBClusterIDAndRoleARN
    (_ : unit) (dbClusterID roleARN : string) (w : Remote) :=
  find (clusterRoles w) (dbClusterID, roleARN) (outage w) missingRow.

(** The probes and their finder responses over the in-memory API. *)
Definition run (p : @Probe unit) : Remote → RefreshResult :=
  closure tfresource.isNotFoundError ServerByID UserByServerIDAndUserName
    FindEventSubscriptionByID FindDBProxyEndpoint FindDBClusterRoleByDBClusterIDAndRoleARN p.

Definition response (p : @Probe unit) : Remote → Representation * error :=
  finderOutcome ServerByID UserByServerIDAndUserName
    FindEventSubscriptionByID FindDBProxyEndpoint FindDBClusterRoleByDBClusterIDAndRoleARN p.

Definition notFound (p : @Probe unit) : Representation * error → bool :=
  classifiedNotFound tfresource.isNotFoundError p.

Definition emptyRemote : Remote :=
  {| servers := ∅; users := ∅; eventSubscriptions := ∅; proxyEndpoints := ∅;
     clusterRoles := ∅; outage := None |}.

Definition throttled : Err := ErrAws "ThrottlingException" "Rate exceeded".

Definition downRemote : Remote :=
  {| servers := ∅; users := ∅; eventSubscriptions := ∅; proxyEndpoints := ∅;
     clusterRoles := ∅; outage := Some throttled |}.

Definition alice : transfer.DescribedUser :=
  {| transfer.UserArn := Some "arn:aws:transfer:us-east-1:123456789012:user/s-01/alice";
     transfer.HomeDirectory := Some "/home/alice";
     transfer.Role := Some "arn:aws:iam::123456789012:role/transfer";
     transfer.UserName := Some "alice" |}.

Definition onlineServer : transfer.DescribedServer :=
  {| transfer.Arn := Some "arn:aws:transfer:us-east-1:123456789012:server/s-01";
     transfer.ServerId := Some "s-01";
     transfer.State := Some "ONLINE" |}.

Definition oneUser : Remote :=
  {| servers := {[ "s-01" := onlineServer ]}; users := {[ ("s-01", "alice") := alice ]};
     eventSubscriptions := ∅; proxyEndpoints := ∅; clusterRoles := ∅; outage := None |}.

Definition oneServer : Remote :=
  {| servers := {[ "s-01" := onlineServer ]}; users := ∅;
     eventSubscriptions := ∅; proxyEndpoints := ∅; clusterRoles := ∅; outage := None |}.

(** A closed instance of C1: no such proxy endpoint. *)
Lemma not_found_returns_nil_error_witness :
  notFound (ProbeDBProxyEndpoint () "ep-1") (response (ProbeDBProxyEndpoint () "ep-1") emptyRemote)
    = true
  ∧ resultErr (run (ProbeDBProxyEndpoint () "ep-1") emptyRemote) = Some None.
Proof.
  split; [vm_compute; reflexivity |].
  apply (not_found_returns_nil_error tfresource.isNotFoundError ServerByID
           UserByServerIDAndUserName FindEventSubscriptionByID FindDBProxyEndpoint
           FindDBClusterRoleByDBClusterIDAndRoleARN (ProbeDBProxyEndpoint () "ep-1") emptyRemote).
  vm_compute; reflexivity.
Defined.

(** A closed instance of C2: the API is throttling. *)
Lemma other_errors_are_propagated_witness :
  response (ProbeServerState () "s-01") downRemote = (RServer None, Some throttled)
  ∧ notFound (ProbeServerState () "s-01") (RServer None, Some throttled) = false
  ∧ resultRep (run (ProbeServerState () "s-01") downRemote) = Some None
  ∧ resultErr (run (ProbeServerState () "s-01") downRemote) = Some (Some throttled).
Proof.
  split; [vm_compute; reflexivity |].
  split; [vm_compute; reflexivity |].
  apply (other_errors_are_propagated tfresource.isNotFoundError ServerByID
           UserByServerIDAndUserName FindEventSubscriptionByID FindDBProxyEndpoint
           FindDBClusterRoleByDBClusterIDAndRoleARN (ProbeServerState () "s-01") downRemote
           (RServer None) throttled);
    vm_compute; reflexivity.
Defined.

(** C3 as stated fails: for a proxy endpoint that does not exist the
    closure returns the token ["NotFound"], not the empty token. *)
Lemma proxy_endpoint_not_found_token_nonempty :
  notFound (ProbeDBProxyEndpoint () "ep-1") (response (ProbeDBProxyEndpoint () "ep-1") emptyRemote)
    = true
  ∧ run (ProbeDBProxyEndpoint () "ep-1") emptyRemote = Returned None "NotFound" None
  ∧ resultState (run (ProbeDBProxyEndpoint () "ep-1") emptyRemote) ≠ Some "".
Proof.
  split; [vm_compute; reflexivity |].
  split; [vm_compute; reflexivity |].
  vm_compute. discriminate.
Defined.

(** A closed instance of the amended C3: a server that does not exist. *)
Lemma not_found_token_witness :
  notFound (ProbeServerState () "s-02") (response (ProbeServerState () "s-02") oneServer) = true
  ∧ resultState (run (ProbeServerState () "s-02") oneServer) = Some "".
Proof.
  split; [vm_compute; reflexivity |].
  apply (not_found_token tfresource.isNotFoundError ServerByID
           UserByServerIDAndUserName FindEventSubscriptionByID FindDBProxyEndpoint
           FindDBClusterRoleByDBClusterIDAndRoleARN (ProbeServerState () "s-02") oneServer).
  vm_compute; reflexivity.
Defined.

(** C4 as stated fails: for an existing user the closure returns the token
    ["exists"], which is the string value of no field of the user; a
    described user has no [State] or [Status] to derive it from. *)
Lemma user_state_token_is_constant :
  succeededWith (response (ProbeUserState () "s-01" "alice") oneUser) (RUser (Some alice))
  ∧ run (ProbeUserState () "s-01" "alice") oneUser
      = Returned (Some (RUser (Some alice))) "exists" None
  ∧ lifecycleField (RUser (Some alice)) = None
  ∧ ∀ field, field ∈ stringFields (RUser (Some alice)) → aws.StringValue field ≠ "exists".
Proof.
  split; [split; vm_compute; reflexivity |].
  split; [vm_compute; reflexivity |].
  split; [reflexivity |].
  intros field Hin. simpl in Hin.
  repeat (apply elem_of_cons in Hin as [-> | Hin]; [vm_compute; discriminate |]).
  by apply elem_of_nil in Hin.
Defined.

(** A closed instance of the amended C4: an online server. *)
Lemma success_returns_representation_witness :
  succeededWith (response (ProbeServerState () "s-01") oneServer) (RServer (Some onlineServer))
  ∧ ∃ tok, run (ProbeServerState () "s-01") oneServer
             = Returned (Some (RServer (Some onlineServer))) tok None
           ∧ ∃ field, lifecycleField (RServer (Some onlineServer)) = Some field
                      ∧ tok = aws.StringValue field.
Proof.
  assert (Hs : succeededWith (response (ProbeServerState () "s-01") oneServer)
                 (RServer (Some onlineServer))) by (split; vm_compute; reflexivity).
  split; [exact Hs |].
  exact (success_returns_representation tfresource.isNotFoundError ServerByID
           UserByServerIDAndUserName FindEventSubscriptionByID FindDBProxyEndpoint
           FindDBClusterRoleByDBClusterIDAndRoleARN (ProbeServerState () "s-01") oneServer
           (RServer (Some onlineServer)) Hs).
Defined.

(** The calls of the closures over the in-memory API. *)
Definition call (p : @Probe unit) (w : Remote) : Run RefreshResult :=
  invoke tfresource.isNotFoundError ServerByID UserByServerIDAndUserName
    FindEventSubscriptionByID FindDBProxyEndpoint FindDBClusterRoleByDBClusterIDAndRoleARN p w.

Definition after (p : @Probe unit) (history : list Remote) : @Probe unit :=
  capturedAfterCalls tfresource.isNotFoundError ServerByID UserByServerIDAndUserName
    FindEventSubscriptionByID FindDBProxyEndpoint FindDBClusterRoleByDBClusterIDAndRoleARN
    p history.

(** A closed instance of C8: the server table is the same whether or not
    the user exists, and the two calls come after different histories (an
    empty API and an outage for one, nothing for the other). *)
Lemma closure_stateless_deterministic_witness :
  response (ProbeServerState () "s-01") oneServer = response (ProbeServerState () "s-01") oneUser
  ∧ after (ProbeServerState () "s-01") [emptyRemote; downRemote] = ProbeServerState () "s-01"
  ∧ capturedAfter (call (after (ProbeServerState () "s-01") [emptyRemote; downRemote]) oneServer)
    = ProbeServerState () "s-01"
  ∧ finderCalls (call (after (ProbeServerState () "s-01") [emptyRemote; downRemote]) oneServer)
    = [finderCallOf (ProbeServerState () "s-01")]
  ∧ returned (call (after (ProbeServerState () "s-01") [emptyRemote; downRemote]) oneServer)
    = run (ProbeServerState () "s-01") oneServer
  ∧ returned (call (after (ProbeServerState () "s-01") [emptyRemote; downRemote]) oneServer)
    = returned (call (after (ProbeServerState () "s-01") []) oneUser).
Proof.
  split; [vm_compute; reflexivity |].
  apply (closure_stateless_deterministic tfresource.isNotFoundError ServerByID
           UserByServerIDAndUserName FindEventSubscriptionByID FindDBProxyEndpoint
           FindDBClusterRoleByDBClusterIDAndRoleARN (ProbeServerState () "s-01")
           [emptyRemote; downRemote] [] oneServer oneUser).
  vm_compute; reflexivity.
Defined.

(** A remote API whose every call fails with a not-found error. *)
Definition goneRemote : Remote :=
  {| servers := ∅; users := ∅; eventSubscriptions := ∅; proxyEndpoints := ∅;
     clusterRoles := ∅; outage := Some (ErrNotFound "DBProxyEndpointNotFoundFault") |}.

(** A closed instance of X1: the online server. *)
Lemma representation_excludes_error_witness :
  run (ProbeServerState () "s-01") oneServer
    = Returned (Some (RServer (Some onlineServer))) "ONLINE" None
  ∧ (None : error) = None
  ∧ response (ProbeServerState () "s-01") oneServer = (RServer (Some onlineServer), None).
Proof.
  assert (H : run (ProbeServerState () "s-01") oneServer
              = Returned (Some (RServer (Some onlineServer))) "ONLINE" None)
    by (vm_compute; reflexivity).
  split; [exact H |].
  exact (representation_excludes_error tfresource.isNotFoundError ServerByID
           UserByServerIDAndUserName FindEventSubscriptionByID FindDBProxyEndpoint
           FindDBClusterRoleByDBClusterIDAndRoleARN (ProbeServerState () "s-01") oneServer
           (RServer (Some onlineServer)) "ONLINE" None H).
Defined.

(** A closed instance of X3: the not-found error of the finder is not
    swallowed by the proxy endpoint probe. *)
Lemma proxy_endpoint_propagates_every_error_witness :
  response (ProbeDBProxyEndpoint () "ep-1") goneRemote
    = (RDBProxyEndpoint None, Some (ErrNotFound "DBProxyEndpointNotFoundFault"))
  ∧ tfresource.isNotFoundError (ErrNotFound "DBProxyEndpointNotFoundFault") = true
  ∧ run (ProbeDBProxyEndpoint () "ep-1") goneRemote
      = Returned None "Unknown" (Some (ErrNotFound "DBProxyEndpointNotFoundFault")).
Proof.
  split; [vm_compute; reflexivity |].
  split; [reflexivity |].
  apply (proxy_endpoint_propagates_every_error tfresource.isNotFoundError ServerByID
           UserByServerIDAndUserName FindEventSubscriptionByID FindDBProxyEndpoint
           FindDBClusterRoleByDBClusterIDAndRoleARN () "ep-1" goneRemote
           (RDBProxyEndpoint None)).
  vm_compute; reflexivity.
Defined.

End InMemory.

(** ** The state-transition waiter

    The waiter itself is not among the files studied (the probes above are
    its callers); it is modelled from the design document.  Time is counted
    in whole ticks; a probe takes no time and a sleep takes [pollInterval]
    ticks (jitter is left out). *)
Module Waiter.
#[local] Open Scope nat_scope.

Section Wait.
Context {Rep Error : Type}.

(** Modelled from the spec: the probe contract
    [probe(id) -> (representation | NotFound, stateToken, err | nil)]; the
    waiter's source is missing. *)
Record ProbeOutcome : Type := {
  representation : option Rep;
  stateToken : string;
  probeErr : option Error
}.

(** Modelled from the spec: the wait specification of
    [Wait(probe, targetStates, failureStates, timeout, minDelay, pollInterval)];
    the waiter's source is missing. *)
Record WaitSpec : Type := {
  targetStates : list string;
  failureStates : list string;
  timeout : nat;
  minDelay : nat;
  pollInterval : nat
}.

(** Modelled from the spec: the errors the waiter signals. *)
Inductive WaitError : Type :=
| TransientProbeError (e : Error)
| UnexpectedTerminalState (token : string) (last : option Rep)
| Timeout
| Cancelled.

(** Modelled from the spec: [Wait] returns the final representation or an
    error; [probes] counts the probe calls the invocation issued. *)
Record WaitResult : Type := {
  outcome : option Rep + WaitError;
  probes : nat
}.

Variable ws : WaitSpec.

(** The k-th probe call of the invocation returns [probe k]. *)
Variable probe : nat → ProbeOutcome.

(** The tick at which the calling context is cancelled, if it ever is. *)
Variable cancelAt : option nat.

Definition cancelledBy (now : nat) : bool :=
  match cancelAt with
  | Some c => Nat.leb c now
  | None => false
  end.

Definition inStates (token : string) (states : list string) : bool :=
  bool_decide (token ∈ states).

(** A probe outcome on which the loop sleeps and polls again. *)
Definition pending (r : ProbeOutcome) : Prop :=
  probeErr r = None ∧ (stateToken r ∉ targetStates ws) ∧ (stateToken r ∉ failureStates ws).

(** Modelled from the spec: the poll/compare/sleep loop of section 4.1,
    whose source is missing.  Each iteration checks the cancellation signal
    first, then the deadline, then probes once: an error is propagated, a
    target token is success, a failure token is an unexpected terminal
    state, anything else sleeps for [pollInterval].  [None] means the fuel
    ran out. *)
Fixpoint poll (fuel calls now : nat) : option WaitResult :=
  match fuel with
  | 0 => None
  | S fuel' =>
      if cancelledBy now then Some {| outcome := inr Cancelled; probes := calls |}
      else if Nat.leb (timeout ws) now then Some {| outcome := inr Timeout; probes := calls |}
      else
        let r := probe calls in
        match probeErr r with
        | Some e => Some {| outcome := inr (TransientProbeError e); probes := S calls |}
        | None =>
            if inStates (stateToken r) (targetStates ws)
            then Some {| outcome := inl (representation r); probes := S calls |}
            else if inStates (stateToken r) (failureStates ws)
            then Some {| outcome :=
                           inr (UnexpectedTerminalState (stateToken r) (representation r));
                         probes := S calls |}
            else poll fuel' (S calls) (now + pollInterval ws)
        end
  end.

(** Modelled from the spec: [Wait], whose source is missing.  The first
    probe comes after the initial delay; with a positive poll interval the
    deadline is reached within [timeout] sleeps, so this fuel is enough. *)
Definition Wait : option WaitResult :=
  poll (S (timeout ws)) 0 (minDelay ws).

(** The tick of the k-th probe call. *)
Definition tick (k : nat) : nat := minDelay ws + k * pollInterval ws.

(** The invocation is still polling at a tick: not cancelled, deadline not
    reached. *)
Definition alive (now : nat) : Prop :=
  cancelledBy now = false ∧ now < timeout ws.

Lemma inStates_true token states : token ∈ states → inStates token states = true.
Proof. intros H. unfold inStates. by apply bool_decide_eq_true. Qed.

Lemma inStates_false token states : token ∉ states → inStates token states = false.
Proof. intros H. unfold inStates. by apply bool_decide_eq_false. Qed.

Lemma alive_checks now :
  alive now → cancelledBy now = false ∧ Nat.leb (timeout ws) now = false.
Proof. intros [Hc Ht]. split; [done |]. apply Nat.leb_gt. lia. Qed.

(** One pending probe costs one unit of fuel, one call and one sleep. *)
Lemma poll_pending fuel calls now :
  alive now → pending (probe calls) →
  poll (S fuel) calls now = poll fuel (S calls) (now + pollInterval ws).
Proof.
  intros Ha (He & Ht & Hf). apply alive_checks in Ha as [Hc Hd].
  simpl. rewrite Hc, Hd, He.
  by rewrite (inStates_false _ _ Ht), (inStates_false _ _ Hf).
Qed.

(** A run of [n] pending probes. *)
Lemma poll_pending_run n : ∀ fuel calls now,
  (∀ j, j < n → alive (now + j * pollInterval ws) ∧ pending (probe (calls + j))) →
  poll (n + fuel) calls now = poll fuel (calls + n) (now + n * pollInterval ws).
Proof.
  induction n as [|n IH]; intros fuel calls now H.
  - simpl. by rewrite !Nat.add_0_r.
  - destruct (H 0) as [Ha Hp]; [lia |].
    rewrite Nat.add_0_r in Hp. simpl in Ha. rewrite Nat.add_0_r in Ha.
    replace (S n + fuel) with (S (n + fuel)) by lia.
    rewrite (poll_pending _ _ _ Ha Hp).
    rewrite IH.
    + f_equal; lia.
    + intros j Hj. destruct (H (S j)) as [Ha' Hp']; [lia |].
      split.
      * replace (now + pollInterval ws + j * pollInterval ws)
          with (now + S j * pollInterval ws) by lia. done.
      * by replace (S calls + j) with (calls + S j) by lia.
Qed.

(** With a positive poll interval the loop always comes to a result. *)
Lemma poll_total fuel : ∀ calls now,
  0 < pollInterval ws → timeout ws ≤ now + fuel → is_Some (poll (S fuel) calls now).
Proof.
  induction fuel as [|fuel IH]; intros calls now Hpos Hfuel.
  - simpl. destruct (cancelledBy now); [done |].
    destruct (Nat.leb_spec (timeout ws) now); [done | lia].
  - cbn [poll]. destruct (cancelledBy now); [done |].
    destruct (Nat.leb_spec (timeout ws) now); [done |].
    destruct (probeErr (probe calls)); [done |].
    destruct (inStates _ (targetStates ws)); [done |].
    destruct (inStates _ (failureStates ws)); [done |].
    apply IH; lia.
Qed.

Lemma Wait_total : 0 < pollInterval ws → is_Some Wait.
Proof. intros Hpos. apply poll_total; [done | lia]. Qed.

(** No token is both acceptable and known-bad. *)
Definition disjointStates : Prop :=
  ∀ token, token ∈ targetStates ws → token ∉ failureStates ws.

Lemma tick_S k : tick (S k) = tick k + pollInterval ws.
Proof. unfold tick. lia. Qed.

Lemma tick_le j k : j ≤ k → tick j ≤ tick k.
Proof. intros H. unfold tick. apply Nat.add_le_mono_l, Nat.mul_le_mono_r, H. Qed.

Lemma tick_ge k : 0 < pollInterval ws → k ≤ tick k.
Proof. intros H. unfold tick. nia. Qed.

Lemma cancelledBy_mono t t' : t' ≤ t → cancelledBy t = false → cancelledBy t' = false.
Proof.
  unfold cancelledBy. destruct cancelAt as [c|]; [|done].
  intros Hle H. apply Nat.leb_gt in H. apply Nat.leb_gt. lia.
Qed.

Lemma alive_mono t t' : t' ≤ t → alive t → alive t'.
Proof.
  intros Hle [Hc Ht]. split; [by eapply cancelledBy_mono | lia].
Qed.

(** [Wait] after [n] pending probes, the last of them with the invocation
    still alive: the loop stands at call [n] and tick [tick n]. *)
Lemma Wait_after_pending n :
  0 < pollInterval ws →
  (∀ j, j < n → pending (probe j)) →
  (∀ j, j < n → alive (tick j)) →
  n ≤ timeout ws →
  Wait = poll (S (timeout ws - n)) n (tick n).
Proof.
  intros Hpos Hpend Halive Hn. unfold Wait.
  replace (S (timeout ws)) with (n + S (timeout ws - n)) by lia.
  rewrite poll_pending_run.
  - by unfold tick.
  - intros j Hj. split; [apply (Halive j Hj) | apply (Hpend j Hj)].
Qed.

(** C5. If the first [n] probes are pending and probe [n], issued before
    the deadline and before any cancellation, returns a target token, then
    [Wait] returns success with the representation of that last probe. *)
Theorem Wait_success_on_target (n : nat) :
  0 < pollInterval ws →
  (∀ j, j < n → pending (probe j)) →
  probeErr (probe n) = None →
  stateToken (probe n) ∈ targetStates ws →
  alive (tick n) →
  Wait = Some {| outcome := inl (representation (probe n)); probes := S n |}.
Proof.
  intros Hpos Hpend Herr Htarget Halive.
  assert (Hn : n ≤ timeout ws) by (pose proof (tick_ge n Hpos); destruct Halive; lia).
  rewrite (Wait_after_pending n Hpos Hpend); [| |done].
  - apply alive_checks in Halive as [Hc Hd]. cbn [poll].
    by rewrite Hc, Hd, Herr, (inStates_true _ _ Htarget).
  - intros j Hj. apply (alive_mono (tick n)); [apply tick_le; lia | done].
Qed.

(** C6. If the first [n] probes are pending and probe [n] returns a token
    of [failureStates], then [Wait] returns [UnexpectedTerminalState] with
    that token and the representation of that probe, and the invocation
    issued [n + 1] probe calls in all: none after the failure token. *)
Theorem Wait_failure_state_stops (n : nat) :
  0 < pollInterval ws →
  disjointStates →
  (∀ j, j < n → pending (probe j)) →
  probeErr (probe n) = None →
  stateToken (probe n) ∈ failureStates ws →
  alive (tick n) →
  Wait = Some {| outcome := inr (UnexpectedTerminalState (stateToken (probe n))
                                   (representation (probe n)));
                 probes := S n |}.
Proof.
  intros Hpos Hdisj Hpend Herr Hfail Halive.
  assert (Hn : n ≤ timeout ws) by (pose proof (tick_ge n Hpos); destruct Halive; lia).
  assert (Hnt : stateToken (probe n) ∉ targetStates ws).
  { intros Hin. by apply (Hdisj _ Hin). }
  rewrite (Wait_after_pending n Hpos Hpend); [| |done].
  - apply alive_checks in Halive as [Hc Hd]. cbn [poll].
    by rewrite Hc, Hd, Herr, (inStates_false _ _ Hnt), (inStates_true _ _ Hfail).
  - intros j Hj. apply (alive_mono (tick n)); [apply tick_le; lia | done].
Qed.

(** C7. If the calling context is cancelled after probe [k] and no later
    than the top of the next iteration, then [Wait] returns [Cancelled] and
    the invocation issued [k + 1] probe calls in all: none after the
    signal. *)
Theorem Wait_cancelled_between_polls (k c : nat) :
  0 < pollInterval ws →
  cancelAt = Some c →
  (∀ j, j < S k → pending (probe j)) →
  tick k < timeout ws →
  tick k < c ≤ tick (S k) →
  Wait = Some {| outcome := inr Cancelled; probes := S k |}.
Proof.
  intros Hpos Hcancel Hpend Hdead [Hafter Hbefore].
  assert (Hk : S k ≤ timeout ws) by (pose proof (tick_ge k Hpos); lia).
  rewrite (Wait_after_pending (S k) Hpos Hpend); [| |done].
  - cbn [poll]. unfold cancelledBy. rewrite Hcancel.
    by destruct (Nat.leb_spec c (tick (S k))); [|lia].
  - intros j Hj. split.
    + unfold cancelledBy. rewrite Hcancel. apply Nat.leb_gt.
      pose proof (tick_le j k). lia.
    + pose proof (tick_le j k). lia.
Qed.

End Wait.
(** *** The scenarios of the design document *)

Definition token (t : string) : ProbeOutcome (Rep := string) (Error := string) :=
  {| representation := Some ("resource in state " ++ t); stateToken := t; probeErr := None |}.

(** A probe that goes through the tokens of a script and then stays on the
    last one. *)
Definition scripted (script : list string) (last : string) (k : nat)
  : ProbeOutcome (Rep := string) (Error := string) :=
  token (nth k script last).

Definition untilActive : WaitSpec :=
  {| targetStates := ["Active"]; failureStates := ["Failed"];
     timeout := 100; minDelay := 5; pollInterval := 10 |}.

Ltac decide_by_computation :=
  match goal with
  | |- ?P => refine (bool_decide_unpack P _); vm_compute; exact I
  end.

Ltac pending_up_to :=
  let j := fresh "j" in
  let Hj := fresh "Hj" in
  intros j Hj;
  try (exfalso; lia);
  repeat (destruct j as [|j]; [decide_by_computation | try (exfalso; lia)]).

(** A closed instance of C5: [Creating, Creating, Active] with target
    [Active] succeeds after three polls. *)
Lemma Wait_success_on_target_witness :
  Wait untilActive (scripted ["Creating"; "Creating"] "Active") None
    = Some {| outcome := inl (Some "resource in state Active"); probes := 3 |}.
Proof.
  apply (Wait_success_on_target untilActive (scripted ["Creating"; "Creating"] "Active") None 2).
  - simpl; lia.
  - pending_up_to.
  - reflexivity.
  - decide_by_computation.
  - split; [reflexivity | vm_compute; lia].
Defined.

(** A closed instance of C6: [Failed] on the first call, no retry. *)
Lemma Wait_failure_state_stops_witness :
  Wait untilActive (scripted [] "Failed") None
    = Some {| outcome := inr (UnexpectedTerminalState "Failed"
                                (Some "resource in state Failed"));
              probes := 1 |}.
Proof.
  apply (Wait_failure_state_stops untilActive (scripted [] "Failed") None 0).
  - simpl; lia.
  - intros t Ht. apply list_elem_of_singleton in Ht as ->. decide_by_computation.
  - pending_up_to.
  - reflexivity.
  - decide_by_computation.
  - split; [reflexivity | vm_compute; lia].
Defined.

(** A closed instance of C7: cancelled at tick 20, between the probe of
    tick 15 and the one due at tick 25. *)
Lemma Wait_cancelled_between_polls_witness :
  Wait untilActive (scripted [] "Creating") (Some 20)
    = Some {| outcome := inr Cancelled; probes := 2 |}.
Proof.
  apply (Wait_cancelled_between_polls untilActive (scripted [] "Creating") (Some 20) 1 20).
  - simpl; lia.
  - reflexivity.
  - pending_up_to.
  - vm_compute; lia.
  - vm_compute; lia.
Defined.

(** The remaining scenarios, run on the model. *)
Example deleting_then_not_found :
  Wait {| targetStates := [""]; failureStates := []; timeout := 100; minDelay := 0;
          pollInterval := 10 |}
       (λ k, match k with
             | 0 => token "Deleting"
             | _ => {| representation := None; stateToken := ""; probeErr := None |}
             end) None
    = Some {| outcome := inl None; probes := 2 |}.
Proof. vm_compute. reflexivity. Qed.

Example never_settles :
  Wait untilActive (scripted [] "Creating") None
    = Some {| outcome := inr Timeout; probes := 10 |}.
Proof. vm_compute. reflexivity. Qed.

End Waiter.

(** ** The SageMaker model resource *)

(** A Go computation that either completes or panics (a failed type
    assertion, a nil dereference, an index out of range). *)
Inductive go (A : Type) : Type :=
| Done (a : A)
| Panics.

Arguments Done {A} a.
Arguments Panics {A}.

#[global] Instance go_ret : MRet go := λ A a, Done a.
#[global] Instance go_bind : MBind go :=
  λ A B f m, match m with Done a => f a | Panics => Panics end.

Set Warnings "-register-all".

(** The [interface{}] values of resource data: strings, pointers handed to
    [d.Set], [[]interface{}], [map[string]interface{}], [map[string]string]
    and [*schema.Set] of strings. *)
Inductive Value : Type :=
| VString (s : string)
| VStringPtr (p : option string)
| VBoolPtr (p : option bool)
| VList (l : list Value)
| VMap (m : gmap string Value)
| VStringMap (m : gmap string string)
| VSet (elems : list string).

Set Warnings "+register-all".

(** The type assertions [v.(string)], [v.([]interface{})] and
    [v.(map[string]interface{})]. *)
Definition assertString (v : Value) : go string :=
  match v with VString s => Done s | _ => Panics end.

Definition assertList (v : Value) : go (list Value) :=
  match v with VList l => Done l | _ => Panics end.

Definition assertMap (v : Value) : go (gmap string Value) :=
  match v with VMap m => Done m | _ => Panics end.

(** [m[key].(string)]: a missing key yields the nil interface, whose
    assertion panics. *)
Definition indexString (m : gmap string Value) (key : string) : go string :=
  match m !! key with
  | Some v => assertString v
  | None => Panics
  end.

Definition isStringValue (v : Value) : option string :=
  match v with VString s => Some s | _ => None end.

(** [expandStringMap] (the provider's structure helpers): every value is
    asserted to be a string and boxed with [aws.String]. *)
Definition expandStringMap (m : gmap string Value) : go (gmap string (option string)) :=
  if decide (map_Forall (λ _ v, is_Some (isStringValue v)) m)
  then Done (isStringValue <$> m)
  else Panics.

Module sagemaker.
Record ImageConfig : Type := {
  RepositoryAccessMode : option string
}.

Record ContainerDefinition : Type := {
  Image : option string;
  ModelPackageName : option string;
  Mode : option string;
  ContainerHostname : option string;
  ModelDataUrl : option string;
  Environment : option (gmap string (option string));
  ImageConfig_ : option ImageConfig
}.

Record VpcConfig : Type := {
  SecurityGroupIds : list (option string);
  Subnets : list (option string)
}.

Record InferenceExecutionConfig : Type := {
  InferenceExecutionMode : option string
}.

Record DescribeModelOutput : Type := {
  ModelArn : option string;
  ModelName : option string;
  ExecutionRoleArn : option string;
  EnableNetworkIsolation : option bool;
  PrimaryContainer : option ContainerDefinition;
  Containers : list (option ContainerDefinition);
  VpcConfig_ : option VpcConfig;
  InferenceExecutionConfig_ : option InferenceExecutionConfig
}.

(** The zero value [sagemaker.ContainerDefinition{}]. *)
Definition emptyContainer : ContainerDefinition :=
  {| Image := None; ModelPackageName := None; Mode := None; ContainerHostname := None;
     ModelDataUrl := None; Environment := None; ImageConfig_ := None |}.
End sagemaker.

(** [if v, ok := m[key]; ok && v.(string) != "" { set(aws.String(v.(string))) }]:
    the field is set from a present, non-empty string and left alone
    otherwise. *)
Definition optionalString (m : gmap string Value) (key : string) : go (option string) :=
  match m !! key with
  | Some v => s ← assertString v; mret (if decide (s ≠ "") then aws.String s else None)
  | None => mret None
  end.

Definition expandSagemakerModelImageConfig (l : list Value) : go (option sagemaker.ImageConfig) :=
  match l with
  | [] => mret None
  | first :: _ =>
      m ← assertMap first;
      mode ← indexString m "repository_access_mode";
      mret (Some {| sagemaker.RepositoryAccessMode := aws.String mode |})
  end.

Definition expandContainer (m : gmap string Value) : go sagemaker.ContainerDefinition :=
  image ← optionalString m "image";
  modelPackageName ← optionalString m "model_package_name";
  mode ← optionalString m "mode";
  containerHostname ← optionalString m "container_hostname";
  modelDataUrl ← optionalString m "model_data_url";
  environment ← match m !! "environment" with
                | Some v => env ← assertMap v; e ← expandStringMap env; mret (Some e)
                | None => mret None
                end;
  imageConfig ← match m !! "image_config" with
                | Some v => l ← assertList v; expandSagemakerModelImageConfig l
                | None => mret None
                end;
  mret {| sagemaker.Image := image;
          sagemaker.ModelPackageName := modelPackageName;
          sagemaker.Mode := mode;
          sagemaker.ContainerHostname := containerHostname;
          sagemaker.ModelDataUrl := modelDataUrl;
          sagemaker.Environment := environment;
          sagemaker.ImageConfig_ := imageConfig |}.

Fixpoint expandContainers (a : list Value) : go (list sagemaker.ContainerDefinition) :=
  match a with
  | [] => mret []
  | v :: rest =>
      m ← assertMap v;
      c ← expandContainer m;
      cs ← expandContainers rest;
      mret (c :: cs)
  end.

Definition flattenSagemakerImageConfig (imageConfig : option sagemaker.ImageConfig)
  : list Value :=
  match imageConfig with
  | None => []
  | Some ic =>
      [VMap {[ "repository_access_mode" :=
                 VString (aws.StringValue (sagemaker.RepositoryAccessMode ic)) ]}]
  end.

(** [if field != nil { cfg[key] = value }]. *)
Definition setIfPresent {A : Type} (key : string) (field : option A) (value : A → Value)
    (cfg : gmap string Value) : gmap string Value :=
  match field with
  | Some x => <[key := value x]> cfg
  | None => cfg
  end.

Definition flattenContainer (container : option sagemaker.ContainerDefinition) : list Value :=
  match container with
  | None => []
  | Some c =>
      let cfg : gmap string Value := ∅ in
      let cfg := setIfPresent "image" (sagemaker.Image c) VString cfg in
      let cfg := setIfPresent "model_package_name" (sagemaker.ModelPackageName c) VString cfg in
      let cfg := setIfPresent "mode" (sagemaker.Mode c) VString cfg in
      let cfg := setIfPresent "container_hostname" (sagemaker.ContainerHostname c) VString cfg in
      let cfg := setIfPresent "model_data_url" (sagemaker.ModelDataUrl c) VString cfg in
      let cfg := setIfPresent "environment" (sagemaker.Environment c)
                   (λ env, VStringMap (aws.StringValueMap env)) cfg in
      let cfg := setIfPresent "image_config" (sagemaker.ImageConfig_ c)
                   (λ ic, VList (flattenSagemakerImageConfig (Some ic))) cfg in
      [VMap cfg]
  end.

(** [flattenContainer(container)[0].(map[string]interface{})] panics on a nil
    container, whose flattening is the empty list. *)
Fixpoint flattenContainers (containers : list (option sagemaker.ContainerDefinition))
  : go (list Value) :=
  match containers with
  | [] => mret []
  | container :: rest =>
      first ← match flattenContainer container with
              | v :: _ => m ← assertMap v; mret (VMap m)
              | [] => Panics
              end;
      fs ← flattenContainers rest;
      mret (first :: fs)
  end.

Definition flattenSagemakerModelInferenceExecutionConfig
    (config : option sagemaker.InferenceExecutionConfig) : list Value :=
  match config with
  | None => []
  | Some c => [VMap {[ "mode" := VString (aws.StringValue (sagemaker.InferenceExecutionMode c)) ]}]
  end.

(** [expand] followed by [flatten], as Create and Read do in turn. *)
Definition flattenExpanded (m : gmap string Value) : go (list Value) :=
  c ← expandContainer m; mret (flattenContainer (Some c)).

(** The map a populated container configuration comes back as: the five
    strings, the environment as a [map[string]string], and the access mode
    of the image configuration when there is one. *)
Definition recovered (image modelPackageName mode containerHostname modelDataUrl : string)
    (env : gmap string string) (accessMode : option string) : gmap string Value :=
  setIfPresent "image_config" accessMode
    (λ r, VList [VMap {[ "repository_access_mode" := VString r ]}])
    (<["environment" := VStringMap env]>
       (<["model_data_url" := VString modelDataUrl]>
          (<["container_hostname" := VString containerHostname]>
             (<["mode" := VString mode]>
                (<["model_package_name" := VString modelPackageName]>
                   (<["image" := VString image]> ∅)))))).

(** The configured [image_config] list: empty, or headed by a block that
    carries [repository_access_mode]. *)
Definition imageConfigHolds (l : list Value) (accessMode : option string) : Prop :=
  match accessMode with
  | None => l = []
  | Some r => ∃ block rest,
      l = VMap block :: rest ∧ block !! "repository_access_mode" = Some (VString r)
  end.

(** A fully populated container block whose [image_config] list is empty,
    as the schema hands it over when no [image_config] block is written. *)
Definition containerWithoutImageConfig : gmap string Value :=
  {[ "image" := VString "123456789012.dkr.ecr.us-west-2.amazonaws.com/kmeans:1";
     "model_package_name" := VString "arn:aws:sagemaker:us-west-2:123456789012:model-package/p";
     "mode" := VString "SingleModel";
     "container_hostname" := VString "primary";
     "model_data_url" := VString "s3://bucket/model.tar.gz";
     "environment" := VMap {[ "STAGE" := VString "prod" ]};
     "image_config" := VList [] ]}.

Definition containerWithImageConfig : gmap string Value :=
  <["image_config" := VList [VMap {[ "repository_access_mode" := VString "Vpc" ]}]]>
    containerWithoutImageConfig.

Lemma StringValueMap_boxed (env : gmap string string) :
  aws.StringValueMap (Some <$> env) = env.
Proof.
  apply map_eq. intros k. unfold aws.StringValueMap.
  rewrite lookup_omap, lookup_fmap. by destruct (env !! k).
Qed.

Lemma expandStringMap_strings (env : gmap string string) :
  expandStringMap (VString <$> env) = Done (Some <$> env).
Proof.
  unfold expandStringMap.
  destruct (decide _) as [_ | Hbad].
  - f_equal. rewrite <- map_fmap_compose. done.
  - exfalso. apply Hbad. intros k v Hk.
    apply lookup_fmap_Some in Hk as (s & <- & _). by eexists.
Qed.

Lemma optionalString_nonempty (m : gmap string Value) (key s : string) :
  m !! key = Some (VString s) → s ≠ "" → optionalString m key = Done (Some s).
Proof.
  intros Hk Hs. unfold optionalString. rewrite Hk. simpl.
  by destruct (decide (s ≠ "")).
Qed.

Lemma expandImageConfig_holds (l : list Value) (accessMode : option string) :
  imageConfigHolds l accessMode →
  expandSagemakerModelImageConfig l =
    Done ((λ r, {| sagemaker.RepositoryAccessMode := Some r |}) <$> accessMode).
Proof.
  destruct accessMode as [r|]; simpl.
  - intros (block & rest & -> & Hr). simpl. unfold indexString. by rewrite Hr.
  - by intros ->.
Qed.

(** C9, as the code has it. For a container map whose five string fields
    are non-empty strings, whose environment is a map of strings and whose
    image_config list is empty or headed by a block with
    repository_access_mode, expanding and then flattening returns a singleton
    list; its map holds the five strings, the environment's strings, and the
    access mode when the list was not empty, and has no image_config entry
    when it was. *)
Theorem flatten_expand_container (m : gmap string Value)
    (image modelPackageName mode containerHostname modelDataUrl : string)
    (env : gmap string string) (imageConfig : list Value) (accessMode : option string) :
  m !! "image" = Some (VString image) → image ≠ "" →
  m !! "model_package_name" = Some (VString modelPackageName) → modelPackageName ≠ "" →
  m !! "mode" = Some (VString mode) → mode ≠ "" →
  m !! "container_hostname" = Some (VString containerHostname) → containerHostname ≠ "" →
  m !! "model_data_url" = Some (VString modelDataUrl) → modelDataUrl ≠ "" →
  m !! "environment" = Some (VMap (VString <$> env)) →
  m !! "image_config" = Some (VList imageConfig) →
  imageConfigHolds imageConfig accessMode →
  flattenExpanded m =
    Done [VMap (recovered image modelPackageName mode containerHostname modelDataUrl
                  env accessMode)].
Proof.
  intros Hi Hi' Hp Hp' Hm Hm' Hh Hh' Hu Hu' He Hc Hl.
  unfold flattenExpanded, expandContainer.
  rewrite (optionalString_nonempty _ _ _ Hi Hi'), (optionalString_nonempty _ _ _ Hp Hp'),
    (optionalString_nonempty _ _ _ Hm Hm'), (optionalString_nonempty _ _ _ Hh Hh'),
    (optionalString_nonempty _ _ _ Hu Hu'), He, Hc.
  simpl. rewrite expandStringMap_strings. simpl.
  rewrite (expandImageConfig_holds _ _ Hl). simpl.
  rewrite StringValueMap_boxed. unfold recovered.
  by destruct accessMode.
Qed.

(** A closed instance of the amended C9, with an image configuration. *)
Lemma flatten_expand_container_witness :
  flattenExpanded containerWithImageConfig =
    Done [VMap (recovered "123456789012.dkr.ecr.us-west-2.amazonaws.com/kmeans:1"
                  "arn:aws:sagemaker:us-west-2:123456789012:model-package/p"
                  "SingleModel" "primary" "s3://bucket/model.tar.gz"
                  {[ "STAGE" := "prod" ]} (Some "Vpc"))].
Proof.
  apply (flatten_expand_container containerWithImageConfig _ _ _ _ _ _
           [VMap {[ "repository_access_mode" := VString "Vpc" ]}] (Some "Vpc"));
    try (vm_compute; reflexivity); try discriminate.
  eexists _, []. split; [reflexivity | vm_compute; reflexivity].
Defined.

(** C9 as stated fails: every field of this container map is populated
    and present, yet the flattened map has no [image_config] entry, where
    the configuration has the empty list. *)
Lemma empty_image_config_is_dropped :
  containerWithoutImageConfig !! "image_config" = Some (VList [])
  ∧ ∃ cfg, flattenExpanded containerWithoutImageConfig = Done [VMap cfg]
           ∧ cfg !! "image_config" = None
           ∧ cfg !! "image_config" ≠ containerWithoutImageConfig !! "image_config".
Proof.
  split; [vm_compute; reflexivity |].
  eexists. split; [vm_compute; reflexivity |].
  split; [vm_compute; reflexivity | vm_compute; discriminate].
Defined.

Lemma flattenContainers_Panics (containers : list (option sagemaker.ContainerDefinition)) :
  flattenContainers containers = Panics ↔ None ∈ containers.
Proof.
  induction containers as [|c cs IH]; simpl.
  - split; [done | by intros ?%elem_of_nil].
  - rewrite elem_of_cons. destruct c as [c|]; simpl.
    + destruct (flattenContainers cs) as [fs|]; simpl.
      * split; [done |]. intros [? | Hin]; [done |]. by apply IH in Hin.
      * split; [|done]. intros _. right. by apply IH.
    + split; [by left | done].
Qed.

(** *** The read handler *)

(** [isAWSErr(err, code, message)]. *)
Definition isAWSErr (err : error) (code message : string) : bool :=
  match err with
  | Some e => awsErrMatches e code message
  | None => false
  end.

(** [*schema.ResourceData]: the resource ID and the attributes written by
    [d.Set]. *)
Record ResourceData : Type := {
  Id : string;
  attributes : gmap string Value
}.

Definition SetId (v : string) (d : ResourceData) : ResourceData :=
  {| Id := v; attributes := attributes d |}.

Definition KeyValueTags : Type := gmap string string.

Definition flattenSageMakerVpcConfigResponse (flattenStringSet : list (option string) → Value)
    (vpcConfig : option sagemaker.VpcConfig) : list Value :=
  match vpcConfig with
  | None => []
  | Some c =>
      [VMap {[ "security_group_ids" := flattenStringSet (sagemaker.SecurityGroupIds c);
               "subnets" := flattenStringSet (sagemaker.Subnets c) ]}]
  end.

Section Read.
(** The SageMaker connection in the state the remote API is in during the
    call, and the provider's tag configuration: the fields of
    the provider's [AWSClient] that the handler reads. *)
Context {DefaultTagsConfig IgnoreTagsConfig : Type}.

Record AWSClient : Type := {
  DescribeModel : string → option sagemaker.DescribeModelOutput * error;
  defaultTagsConfig : DefaultTagsConfig;
  ignoreTagsConfig : IgnoreTagsConfig
}.

(** Helpers of the provider and of the plugin SDK that are outside the
    files studied: the schema's verdict on a [d.Set], the tag listing and
    the tag filters, and the flattening of string sets. *)
Variable setError : string → Value → error.
Variable SagemakerListTags : AWSClient → string → KeyValueTags * error.
Variable IgnoreAws : KeyValueTags → KeyValueTags.
Variable IgnoreConfig : IgnoreTagsConfig → KeyValueTags → KeyValueTags.
Variable RemoveDefaultConfig : DefaultTagsConfig → KeyValueTags → KeyValueTags.
Variable flattenStringSet : list (option string) → Value.

(** [d.Set(key, value)]: the attribute is written unless the schema
    rejects it. *)
Definition Set_ (key : string) (value : Value) (d : ResourceData) : ResourceData * error :=
  match setError key value with
  | Some e => (d, Some e)
  | None => ({| Id := Id d; attributes := <[key := value]> (attributes d) |}, None)
  end.

(** [if err := d.Set(key, value); err != nil { return fmt.Errorf(...) }]
    followed by the rest of the handler. *)
Definition setOrFail (key : string) (value : Value) (d : ResourceData)
    (rest : ResourceData → go (ResourceData * error)) : go (ResourceData * error) :=
  match Set_ key value d with
  | (d', Some e) => Done (d', Some (ErrWrap ("error setting " ++ key ++ ": ") e))
  | (d', None) => rest d'
  end.

Definition resourceAwsSagemakerModelRead (d : ResourceData) (meta : AWSClient)
  : go (ResourceData * error) :=
  let '(model, err) := DescribeModel meta (Id d) in
  match err with
  | Some e =>
      if isAWSErr err "ValidationException" ""
      then Done (SetId "" d, None)
      else Done (d, Some (ErrWrap ("error reading Sagemaker model " ++ Id d ++ ": ") e))
  | None =>
      match model with
      | None => Panics
      | Some model =>
          let arn := aws.StringValue (sagemaker.ModelArn model) in
          let d := (Set_ "arn" (VString arn) d).1 in
          let d := (Set_ "name" (VStringPtr (sagemaker.ModelName model)) d).1 in
          let d := (Set_ "execution_role_arn"
                      (VStringPtr (sagemaker.ExecutionRoleArn model)) d).1 in
          let d := (Set_ "enable_network_isolation"
                      (VBoolPtr (sagemaker.EnableNetworkIsolation model)) d).1 in
          setOrFail "primary_container"
            (VList (flattenContainer (sagemaker.PrimaryContainer model))) d (λ d,
          containers ← flattenContainers (sagemaker.Containers model);
          setOrFail "container" (VList containers) d (λ d,
          setOrFail "vpc_config"
            (VList (flattenSageMakerVpcConfigResponse flattenStringSet
                      (sagemaker.VpcConfig_ model))) d (λ d,
          setOrFail "inference_execution_config"
            (VList (flattenSagemakerModelInferenceExecutionConfig
                      (sagemaker.InferenceExecutionConfig_ model))) d (λ d,
          let '(tags, err) := SagemakerListTags meta arn in
          match err with
          | Some e =>
              Done (d, Some (ErrWrap ("error listing tags for Sagemaker Model ("
                                        ++ Id d ++ "): ") e))
          | None =>
              let tags := IgnoreConfig (ignoreTagsConfig meta) (IgnoreAws tags) in
              setOrFail "tags"
                (VStringMap (RemoveDefaultConfig (defaultTagsConfig meta) tags)) d (λ d,
              setOrFail "tags_all" (VStringMap tags) d (λ d,
              Done (d, None)))
          end))))
      end
  end.

(** C10. When [DescribeModel] fails, the handler returns: for an AWS error
    with code [ValidationException] it clears the resource ID and returns a
    nil error; for every other error it returns that error wrapped under
    the reading message and leaves the resource data, its ID included, as it
    was. *)
Theorem read_on_describe_failure (d : ResourceData) (meta : AWSClient)
    (model : option sagemaker.DescribeModelOutput) (e : Err) :
  DescribeModel meta (Id d) = (model, Some e) →
  (isAWSErr (Some e) "ValidationException" "" = true →
     resourceAwsSagemakerModelRead d meta
       = Done ({| Id := ""; attributes := attributes d |}, None))
  ∧ (isAWSErr (Some e) "ValidationException" "" = false →
     resourceAwsSagemakerModelRead d meta
       = Done (d, Some (ErrWrap ("error reading Sagemaker model " ++ Id d ++ ": ") e))).
Proof.
  intros Hcall. unfold resourceAwsSagemakerModelRead. rewrite Hcall.
  split; intros Hcode; by rewrite Hcode.
Qed.

(** *** Further facts about the read handler *)

Lemma Set_Id (key : string) (value : Value) (d : ResourceData) :
  Id (Set_ key value d).1 = Id d.
Proof. unfold Set_. by destruct (setError key value). Qed.

Lemma Set_accepted (key : string) (value : Value) (d : ResourceData) :
  setError key value = None →
  Set_ key value d = ({| Id := Id d; attributes := <[key := value]> (attributes d) |}, None).
Proof. intros H. unfold Set_. by rewrite H. Qed.

Lemma Set_other (key key' : string) (value : Value) (d : ResourceData) :
  key ≠ key' → attributes (Set_ key value d).1 !! key' = attributes d !! key'.
Proof.
  intros Hne. unfold Set_. destruct (setError key value); simpl; [done |].
  by rewrite lookup_insert_ne.
Qed.

(** What holds of every result of a handler tail that starts from [d]. *)
Definition tailKeeps (P : ResourceData → ResourceData → error → Prop)
    (rest : ResourceData → go (ResourceData * error)) : Prop :=
  ∀ d d' err, rest d = Done (d', err) → P d d' err.

Lemma setOrFail_keeps_id (key : string) (value : Value)
    (rest : ResourceData → go (ResourceData * error)) :
  tailKeeps (λ d d' _, Id d' = Id d) rest →
  tailKeeps (λ d d' _, Id d' = Id d) (λ d, setOrFail key value d rest).
Proof.
  intros Hrest d d' err. unfold setOrFail.
  pose proof (Set_Id key value d) as HId.
  destruct (Set_ key value d) as [d1 [e|]]; simpl in *.
  - intros [= <- <-]. done.
  - intros H. apply Hrest in H. congruence.
Qed.

(** X16. The read handler touches the resource ID in one case only: it
    clears it when [DescribeModel] fails with a [ValidationException], and
    then returns a nil error.  In every other completed run the ID is what it
    was. *)
Theorem read_keeps_id (d : ResourceData) (meta : AWSClient) (d' : ResourceData) (err : error) :
  resourceAwsSagemakerModelRead d meta = Done (d', err) →
  Id d' = Id d
  ∨ (Id d' = "" ∧ err = None
     ∧ ∃ model e, DescribeModel meta (Id d) = (model, Some e)
                  ∧ isAWSErr (Some e) "ValidationException" "" = true).
Proof.
  unfold resourceAwsSagemakerModelRead.
  destruct (DescribeModel meta (Id d)) as [model [e|]] eqn:Hcall.
  - destruct (isAWSErr (Some e) "ValidationException" "") eqn:Hcode.
    + intros [= <- <-]. right. split_and!; [done | done |]. by exists model, e.
    + intros [= <- <-]. by left.
  - destruct model as [model|]; [|done].
    set (d0 := (Set_ "enable_network_isolation" _ _).1).
    assert (H0 : Id d0 = Id d) by (unfold d0; by rewrite !Set_Id).
    clearbody d0. intros H. left. rewrite <- H0. clear H0.
    revert d0 d' err H.
    apply (setOrFail_keeps_id "primary_container"). intros d1 d' err.
    destruct (flattenContainers (sagemaker.Containers model)) as [containers|]; [|done].
    simpl. revert d1 d' err.
    apply (setOrFail_keeps_id "container").
    apply (setOrFail_keeps_id "vpc_config").
    apply (setOrFail_keeps_id "inference_execution_config").
    intros d2 d' err.
    destruct (SagemakerListTags meta _) as [tags [e|]].
    + by intros [= <- <-].
    + revert d2 d' err.
      apply (setOrFail_keeps_id "tags").
      apply (setOrFail_keeps_id "tags_all").
      by intros d3 d' err [= <- <-].
Qed.

(** The value the handler writes under each key whose write it checks. *)
Definition checkedWrite (meta : AWSClient) (model : sagemaker.DescribeModelOutput)
    (key : string) (value : Value) : Prop :=
  (key = "primary_container"
   ∧ value = VList (flattenContainer (sagemaker.PrimaryContainer model)))
  ∨ (key = "container"
     ∧ ∃ blocks, flattenContainers (sagemaker.Containers model) = Done blocks
                 ∧ value = VList blocks)
  ∨ (key = "vpc_config"
     ∧ value = VList (flattenSageMakerVpcConfigResponse flattenStringSet
                        (sagemaker.VpcConfig_ model)))
  ∨ (key = "inference_execution_config"
     ∧ value = VList (flattenSagemakerModelInferenceExecutionConfig
                        (sagemaker.InferenceExecutionConfig_ model)))
  ∨ (∃ tags,
       SagemakerListTags meta (aws.StringValue (sagemaker.ModelArn model)) = (tags, None)
       ∧ ((key = "tags"
           ∧ value = VStringMap (RemoveDefaultConfig (defaultTagsConfig meta)
                                   (IgnoreConfig (ignoreTagsConfig meta) (IgnoreAws tags))))
          ∨ (key = "tags_all"
             ∧ value = VStringMap (IgnoreConfig (ignoreTagsConfig meta) (IgnoreAws tags))))).

(** X17. Every error the read handler returns is the error of the step
    that failed, wrapped under a message that names the step: the error of
    [DescribeModel] (one that is no [ValidationException]) under the reading
    message with the ID, the schema's error for one of the six checked writes
    under the setting message with the key, or the error of the tag listing
    under the listing message with the ID. *)
Theorem read_errors_are_wrapped (d : ResourceData) (meta : AWSClient)
    (d' : ResourceData) (e : Err) :
  resourceAwsSagemakerModelRead d meta = Done (d', Some e) →
  (∃ output inner,
     DescribeModel meta (Id d) = (output, Some inner)
     ∧ isAWSErr (Some inner) "ValidationException" "" = false
     ∧ e = ErrWrap ("error reading Sagemaker model " ++ Id d ++ ": ") inner)
  ∨ (∃ model key value inner,
       DescribeModel meta (Id d) = (Some model, None)
       ∧ checkedWrite meta model key value
       ∧ setError key value = Some inner
       ∧ e = ErrWrap ("error setting " ++ key ++ ": ") inner)
  ∨ (∃ model tags inner,
       DescribeModel meta (Id d) = (Some model, None)
       ∧ SagemakerListTags meta (aws.StringValue (sagemaker.ModelArn model))
         = (tags, Some inner)
       ∧ e = ErrWrap ("error listing tags for Sagemaker Model (" ++ Id d ++ "): ") inner).
Proof.
  unfold resourceAwsSagemakerModelRead.
  destruct (DescribeModel meta (Id d)) as [output [e0|]] eqn:Hcall.
  - destruct (isAWSErr (Some e0) "ValidationException" "") eqn:Hcode; intros [= <- <-].
    left. by exists output, e0.
  - destruct output as [model|]; [|done].
    set (d0 := (Set_ "enable_network_isolation" _ _).1).
    assert (H0 : Id d0 = Id d) by (unfold d0; by rewrite !Set_Id).
    clearbody d0. unfold setOrFail, Set_. unfold checkedWrite.
    destruct (setError "primary_container" _) as [e1|] eqn:E1.
    { intros [= <- <-]. right; left. eexists model, _, _, e1.
      split_and!; [done | left; done | done | done]. }
    destruct (flattenContainers (sagemaker.Containers model)) as [blocks|] eqn:Hb; [|done].
    simpl.
    destruct (setError "container" _) as [e2|] eqn:E2.
    { intros [= <- <-]. right; left. eexists model, _, _, e2.
      split_and!; [done | right; left; split; [done | by exists blocks] | done | done]. }
    destruct (setError "vpc_config" _) as [e3|] eqn:E3.
    { intros [= <- <-]. right; left. eexists model, _, _, e3.
      split_and!; [done | right; right; left; done | done | done]. }
    destruct (setError "inference_execution_config" _) as [e4|] eqn:E4.
    { intros [= <- <-]. right; left. eexists model, _, _, e4.
      split_and!; [done | right; right; right; left; done | done | done]. }
    destruct (SagemakerListTags meta _) as [tags [e5|]] eqn:Htags.
    { intros [= <- <-]. right; right. exists model, tags, e5. simpl. by rewrite H0. }
    destruct (setError "tags" _) as [e6|] eqn:E6.
    { intros [= <- <-]. right; left. eexists model, _, _, e6.
      split_and!; [done | | done | done].
      do 4 right. exists tags. split; [done |]. left. done. }
    destruct (setError "tags_all" _) as [e7|] eqn:E7.
    { intros [= <- <-]. right; left. eexists model, _, _, e7.
      split_and!; [done | | done | done].
      do 4 right. exists tags. split; [done |]. right. done. }
    done.
Qed.

(** X18. When [DescribeModel] and the tag listing succeed, no container of
    the model is nil and the schema accepts the six values the handler writes
    under the checked keys, the read handler returns a nil error, keeps the
    ID, and leaves under each of the six keys what it flattened from the
    response; a rejected write of [arn], [name], [execution_role_arn] or
    [enable_network_isolation] goes unreported. *)
Theorem read_success (d : ResourceData) (meta : AWSClient)
    (model : sagemaker.DescribeModelOutput) (blocks : list Value) (tags : KeyValueTags) :
  DescribeModel meta (Id d) = (Some model, None) →
  flattenContainers (sagemaker.Containers model) = Done blocks →
  SagemakerListTags meta (aws.StringValue (sagemaker.ModelArn model)) = (tags, None) →
  setError "primary_container"
    (VList (flattenContainer (sagemaker.PrimaryContainer model))) = None →
  setError "container" (VList blocks) = None →
  setError "vpc_config"
    (VList (flattenSageMakerVpcConfigResponse flattenStringSet
              (sagemaker.VpcConfig_ model))) = None →
  setError "inference_execution_config"
    (VList (flattenSagemakerModelInferenceExecutionConfig
              (sagemaker.InferenceExecutionConfig_ model))) = None →
  setError "tags"
    (VStringMap (RemoveDefaultConfig (defaultTagsConfig meta)
                   (IgnoreConfig (ignoreTagsConfig meta) (IgnoreAws tags)))) = None →
  setError "tags_all"
    (VStringMap (IgnoreConfig (ignoreTagsConfig meta) (IgnoreAws tags))) = None →
  ∃ d', resourceAwsSagemakerModelRead d meta = Done (d', None)
        ∧ Id d' = Id d
        ∧ attributes d' !! "primary_container"
            = Some (VList (flattenContainer (sagemaker.PrimaryContainer model)))
        ∧ attributes d' !! "container" = Some (VList blocks)
        ∧ attributes d' !! "vpc_config"
            = Some (VList (flattenSageMakerVpcConfigResponse flattenStringSet
                             (sagemaker.VpcConfig_ model)))
        ∧ attributes d' !! "inference_execution_config"
            = Some (VList (flattenSagemakerModelInferenceExecutionConfig
                             (sagemaker.InferenceExecutionConfig_ model)))
        ∧ attributes d' !! "tags"
            = Some (VStringMap (RemoveDefaultConfig (defaultTagsConfig meta)
                                  (IgnoreConfig (ignoreTagsConfig meta) (IgnoreAws tags))))
        ∧ attributes d' !! "tags_all"
            = Some (VStringMap (IgnoreConfig (ignoreTagsConfig meta) (IgnoreAws tags))).
Proof.
  intros Hcall Hblocks Htags H1 H2 H3 H4 H5 H6.
  unfold resourceAwsSagemakerModelRead. rewrite Hcall.
  set (d0 := (Set_ "enable_network_isolation" _ _).1).
  assert (H0 : Id d0 = Id d) by (unfold d0; by rewrite !Set_Id).
  clearbody d0.
  unfold setOrFail.
  rewrite (Set_accepted _ _ _ H1).
  rewrite Hblocks. simpl.
  rewrite (Set_accepted _ _ _ H2).
  rewrite (Set_accepted _ _ _ H3).
  rewrite (Set_accepted _ _ _ H4).
  rewrite Htags.
  rewrite (Set_accepted _ _ _ H5).
  rewrite (Set_accepted _ _ _ H6).
  eexists. split; [reflexivity |]. simpl.
  split; [done |].
  split_and!; by simplify_map_eq.
Qed.

Lemma setOrFail_completes (key : string) (value : Value) (d : ResourceData)
    (rest : ResourceData → go (ResourceData * error)) :
  (∀ d1, rest d1 ≠ Panics) → setOrFail key value d rest ≠ Panics.
Proof.
  intros Hrest. unfold setOrFail. destruct (Set_ key value d) as [d1 [e|]]; [done |].
  apply Hrest.
Qed.

(** X19. The read handler panics in two situations only: [DescribeModel]
    returns a nil output with a nil error, or the model lists a nil container
    and the handler gets as far as flattening the list (the write of
    [primary_container] having been accepted). *)
Theorem read_panics_iff (d : ResourceData) (meta : AWSClient) :
  resourceAwsSagemakerModelRead d meta = Panics ↔
    ∃ output, DescribeModel meta (Id d) = (output, None)
      ∧ match output with
        | None => True
        | Some model =>
            setError "primary_container"
              (VList (flattenContainer (sagemaker.PrimaryContainer model))) = None
            ∧ None ∈ sagemaker.Containers model
        end.
Proof.
  unfold resourceAwsSagemakerModelRead.
  destruct (DescribeModel meta (Id d)) as [output [e|]] eqn:Hcall.
  - split.
    + by destruct (isAWSErr (Some e) "ValidationException" "").
    + by intros (? & [= ] & _).
  - destruct output as [model|].
    + set (d0 := (Set_ "enable_network_isolation" _ _).1). clearbody d0.
      unfold setOrFail at 1. unfold Set_ at 1.
      destruct (setError "primary_container" _) as [e|] eqn:Hset.
      * split; [done |]. intros (? & [= <-] & [? _]). congruence.
      * destruct (flattenContainers (sagemaker.Containers model)) as [blocks|] eqn:Hb; simpl.
        -- split.
           ++ intros H. exfalso. revert H.
              apply setOrFail_completes. intros d1.
              apply setOrFail_completes. intros d2.
              apply setOrFail_completes. intros d3.
              destruct (SagemakerListTags meta _) as [tags [e|]]; [done |].
              apply setOrFail_completes. intros d4.
              apply setOrFail_completes. done.
           ++ intros (? & [= <-] & _ & Hnil).
              apply flattenContainers_Panics in Hnil. congruence.
        -- split; [|done]. intros _. exists (Some model).
           split; [done |]. split; [done |]. by apply flattenContainers_Panics.
    + split; [|done]. intros _. by exists None.
Qed.

End Read.

(** An AWS error with the code asked for matches whatever its message. *)
Lemma Contains_empty (s : string) : Contains s "" = true.
Proof. by destruct s. Qed.

Lemma isAWSErr_code (code message : string) :
  isAWSErr (Some (ErrAws code message)) code "" = true.
Proof.
  simpl. rewrite Contains_empty, andb_true_r. by apply bool_decide_eq_true.
Qed.

(** A connection on which the model has been deleted out of band. *)
Definition modelGone : AWSClient (DefaultTagsConfig := unit) (IgnoreTagsConfig := unit) :=
  {| DescribeModel := λ name,
       (None, Some (ErrAws "ValidationException" ("Could not find model " ++ name)));
     defaultTagsConfig := ();
     ignoreTagsConfig := () |}.

Definition storedModel : ResourceData :=
  {| Id := "kmeans"; attributes := {[ "name" := VString "kmeans" ]} |}.

(** A closed instance of C10: the model is gone, the ID is cleared. *)
Lemma read_on_describe_failure_witness :
  DescribeModel modelGone (Id storedModel)
    = (None, Some (ErrAws "ValidationException" "Could not find model kmeans"))
  ∧ resourceAwsSagemakerModelRead (λ _ _, None) (λ _ _, (∅, None)) id (λ _, id) (λ _, id)
      (λ _, VSet []) storedModel modelGone
    = Done ({| Id := ""; attributes := attributes storedModel |}, None).
Proof.
  split; [reflexivity |].
  apply (read_on_describe_failure (λ _ _, None) (λ _ _, (∅, None)) id (λ _, id) (λ _, id)
           (λ _, VSet []) storedModel modelGone None
           (ErrAws "ValidationException" "Could not find model kmeans")).
  - reflexivity.
  - apply isAWSErr_code.
Defined.

(** ** Further facts about the SageMaker helpers *)

(** A computation that completes instead of panicking. *)
Definition completes {A : Type} (x : go A) : Prop := ∃ a, x = Done a.

Lemma bind_Done {A B : Type} (x : go A) (k : A → go B) (b : B) :
  x ≫= k = Done b ↔ ∃ a, x = Done a ∧ k a = Done b.
Proof.
  destruct x as [a|]; simpl.
  - split; [by exists a | by intros (a' & [= ->] & ?)].
  - split; [done | by intros (? & ? & ?)].
Qed.

Lemma bind_completes {A B : Type} (x : go A) (k : A → go B) :
  completes (x ≫= k) ↔ ∃ a, x = Done a ∧ completes (k a).
Proof.
  unfold completes. split.
  - intros (b & Hb). apply bind_Done in Hb as (a & ? & ?). eauto.
  - intros (a & Ha & b & Hb). exists b. apply bind_Done. eauto.
Qed.

Lemma ret_completes {A : Type} (a : A) : completes (mret a : go A).
Proof. by exists a. Qed.

(** The entry under a key is a string, or the key is missing. *)
Definition stringOrAbsent (m : gmap string Value) (key : string) : Prop :=
  match m !! key with
  | Some (VString _) | None => True
  | Some _ => False
  end.

(** The environment is missing or a map of strings. *)
Definition environmentTyped (m : gmap string Value) : Prop :=
  match m !! "environment" with
  | None => True
  | Some (VMap env) => map_Forall (λ _ v, is_Some (isStringValue v)) env
  | Some _ => False
  end.

(** The image configuration is missing, an empty list, or a list headed
    by a block whose access mode is a string. *)
Definition imageConfigTyped (m : gmap string Value) : Prop :=
  match m !! "image_config" with
  | None | Some (VList []) => True
  | Some (VList (VMap block :: _)) =>
      ∃ s, block !! "repository_access_mode" = Some (VString s)
  | Some _ => False
  end.

(** A container map whose entries have the Go types [expandContainer]
    asserts. *)
Definition containerTyped (m : gmap string Value) : Prop :=
  stringOrAbsent m "image" ∧ stringOrAbsent m "model_package_name"
  ∧ stringOrAbsent m "mode" ∧ stringOrAbsent m "container_hostname"
  ∧ stringOrAbsent m "model_data_url" ∧ environmentTyped m ∧ imageConfigTyped m.

Lemma optionalString_Done (m : gmap string Value) (key : string) (field : option string) :
  optionalString m key = Done field →
  ∀ s, field = Some s ↔ m !! key = Some (VString s) ∧ s ≠ "".
Proof.
  unfold optionalString. destruct (m !! key) as [v|]; simpl.
  - destruct v; simpl; try done. intros [= <-] s'.
    destruct (decide (s ≠ "")) as [Hs | Hs]; unfold aws.String.
    + split; [by intros [= <-] | by intros [[= <-] _]].
    + split; [done | intros [[= <-] ?]; done].
  - intros [= <-] s. split; [done | by intros [? _]].
Qed.

Lemma optionalString_completes (m : gmap string Value) (key : string) :
  completes (optionalString m key) ↔ stringOrAbsent m key.
Proof.
  unfold optionalString, stringOrAbsent, completes.
  destruct (m !! key) as [v|]; simpl; [destruct v; simpl |]; split; eauto;
    try done; by intros [? ?].
Qed.

Lemma expandStringMap_completes (env : gmap string Value) :
  completes (expandStringMap env) ↔ map_Forall (λ _ v, is_Some (isStringValue v)) env.
Proof.
  unfold expandStringMap, completes. destruct (decide _) as [H | H].
  - split; eauto.
  - split; [by intros [? ?] | done].
Qed.

Lemma expandImageConfig_completes (l : list Value) :
  completes (expandSagemakerModelImageConfig l) ↔
    match l with
    | [] => True
    | VMap block :: _ => ∃ s, block !! "repository_access_mode" = Some (VString s)
    | _ :: _ => False
    end.
Proof.
  unfold completes. destruct l as [|v rest]; simpl; [split; eauto |].
  destruct v; simpl; try (split; [by intros [? ?] | done]).
  unfold indexString. destruct (m !! "repository_access_mode") as [v|]; simpl.
  - destruct v; simpl; split; eauto; try (by intros [? ?]); by intros [? [= ]].
  - split; [by intros [? ?] | by intros [? ?]].
Qed.

(** X4. In a container that [expandContainer] produced, each string field
    is set exactly when the map holds a non-empty string under its key; a
    missing key and an empty string both leave the field nil. *)
Theorem expandContainer_string_fields (m : gmap string Value)
    (c : sagemaker.ContainerDefinition) (s : string) :
  expandContainer m = Done c →
  (sagemaker.Image c = Some s ↔ m !! "image" = Some (VString s) ∧ s ≠ "")
  ∧ (sagemaker.ModelPackageName c = Some s
     ↔ m !! "model_package_name" = Some (VString s) ∧ s ≠ "")
  ∧ (sagemaker.Mode c = Some s ↔ m !! "mode" = Some (VString s) ∧ s ≠ "")
  ∧ (sagemaker.ContainerHostname c = Some s
     ↔ m !! "container_hostname" = Some (VString s) ∧ s ≠ "")
  ∧ (sagemaker.ModelDataUrl c = Some s
     ↔ m !! "model_data_url" = Some (VString s) ∧ s ≠ "").
Proof.
  unfold expandContainer. intros H.
  apply bind_Done in H as (image & Hi & H).
  apply bind_Done in H as (pkg & Hp & H).
  apply bind_Done in H as (mode & Hm & H).
  apply bind_Done in H as (host & Hh & H).
  apply bind_Done in H as (url & Hu & H).
  apply bind_Done in H as (env & _ & H).
  apply bind_Done in H as (ic & _ & H).
  injection H as <-. simpl.
  split_and!; by eapply optionalString_Done.
Qed.

(** X5. [expandContainer] completes exactly on the maps whose entries have
    the asserted types; on any other map a type assertion panics. *)
Theorem expandContainer_completes_iff (m : gmap string Value) :
  completes (expandContainer m) ↔ containerTyped m.
Proof.
  unfold expandContainer, containerTyped.
  split.
  - intros [c H].
    apply bind_Done in H as (a1 & H1 & H).
    apply bind_Done in H as (a2 & H2 & H).
    apply bind_Done in H as (a3 & H3 & H).
    apply bind_Done in H as (a4 & H4 & H).
    apply bind_Done in H as (a5 & H5 & H).
    apply bind_Done in H as (a6 & H6 & H).
    apply bind_Done in H as (a7 & H7 & _).
    split_and!; try (apply optionalString_completes; by eexists).
    + unfold environmentTyped. destruct (m !! "environment") as [v|]; [|done].
      apply bind_Done in H6 as (env & Henv & H6). destruct v; try done.
      injection Henv as ->. apply bind_Done in H6 as (e & He & _).
      apply expandStringMap_completes. by eexists.
    + unfold imageConfigTyped. destruct (m !! "image_config") as [v|]; [|done].
      apply bind_Done in H7 as (l & Hl & H7). destruct v; try done.
      injection Hl as ->.
      assert (Hc : completes (expandSagemakerModelImageConfig l)) by (by eexists).
      apply expandImageConfig_completes in Hc.
      destruct l as [|[] ?]; done.
  - intros (H1 & H2 & H3 & H4 & H5 & H6 & H7).
    apply optionalString_completes in H1 as [a1 H1], H2 as [a2 H2], H3 as [a3 H3],
      H4 as [a4 H4], H5 as [a5 H5].
    rewrite H1, H2, H3, H4, H5. simpl.
    unfold environmentTyped in H6. unfold imageConfigTyped in H7.
    destruct (m !! "environment") as [v|].
    + destruct v; try done. apply expandStringMap_completes in H6 as [e He].
      simpl. rewrite He. simpl.
      destruct (m !! "image_config") as [v|]; [|by eexists].
      destruct v; try done. simpl.
      assert (Hc : completes (expandSagemakerModelImageConfig l))
        by (apply expandImageConfig_completes; destruct l as [|[] ?]; done).
      destruct Hc as [ic ->]. by eexists.
    + simpl.
      destruct (m !! "image_config") as [v|]; [|by eexists].
      destruct v; try done. simpl.
      assert (Hc : completes (expandSagemakerModelImageConfig l))
        by (apply expandImageConfig_completes; destruct l as [|[] ?]; done).
      destruct Hc as [ic ->]. by eexists.
Qed.

(** A closed instance of X4: a container block with an empty image. *)
Lemma expandContainer_string_fields_witness :
  expandContainer {[ "image" := VString ""; "mode" := VString "MultiModel" ]}
    = Done {| sagemaker.Image := None; sagemaker.ModelPackageName := None;
              sagemaker.Mode := Some "MultiModel"; sagemaker.ContainerHostname := None;
              sagemaker.ModelDataUrl := None; sagemaker.Environment := None;
              sagemaker.ImageConfig_ := None |}
  ∧ ((Some "MultiModel" = Some "MultiModel"
      ↔ ({[ "image" := VString ""; "mode" := VString "MultiModel" ]} : gmap string Value)
          !! "mode" = Some (VString "MultiModel") ∧ "MultiModel" ≠ "")).
Proof.
  assert (H : expandContainer {[ "image" := VString ""; "mode" := VString "MultiModel" ]}
              = Done {| sagemaker.Image := None; sagemaker.ModelPackageName := None;
                        sagemaker.Mode := Some "MultiModel";
                        sagemaker.ContainerHostname := None;
                        sagemaker.ModelDataUrl := None; sagemaker.Environment := None;
                        sagemaker.ImageConfig_ := None |})
    by (vm_compute; reflexivity).
  split; [exact H |].
  exact (proj1 (proj2 (proj2 (expandContainer_string_fields _ _ "MultiModel" H)))).
Defined.

Definition expandSagemakerModelInferenceExecutionConfig (l : list Value)
  : go (option sagemaker.InferenceExecutionConfig) :=
  match l with
  | [] => mret None
  | first :: _ =>
      m ← assertMap first;
      mode ← indexString m "mode";
      mret (Some {| sagemaker.InferenceExecutionMode := aws.String mode |})
  end.

(** X6. Expanding a flattened image configuration gives the configuration
    back, nil for nil, except that a nil access mode comes back as a pointer
    to the empty string. *)
Theorem expand_flatten_image_config (imageConfig : option sagemaker.ImageConfig) :
  expandSagemakerModelImageConfig (flattenSagemakerImageConfig imageConfig)
    = Done ((λ ic, {| sagemaker.RepositoryAccessMode :=
                        Some (aws.StringValue (sagemaker.RepositoryAccessMode ic)) |})
              <$> imageConfig).
Proof.
  destruct imageConfig as [ic|]; simpl; [|done].
  unfold indexString. by rewrite lookup_singleton_eq.
Qed.

(** X7. Expanding a flattened inference execution configuration gives the
    configuration back, nil for nil, except that a nil mode comes back as a
    pointer to the empty string. *)
Theorem expand_flatten_inference_execution_config
    (config : option sagemaker.InferenceExecutionConfig) :
  expandSagemakerModelInferenceExecutionConfig
      (flattenSagemakerModelInferenceExecutionConfig config)
    = Done ((λ c, {| sagemaker.InferenceExecutionMode :=
                       Some (aws.StringValue (sagemaker.InferenceExecutionMode c)) |})
              <$> config).
Proof.
  destruct config as [c|]; simpl; [|done].
  unfold indexString. by rewrite lookup_singleton_eq.
Qed.

(** X8. Of a configured [inference_execution_config] list only the first
    block counts, and of that block only its mode: expanding and flattening
    returns one block that holds just the mode. *)
Theorem flatten_expand_inference_execution_config
    (block : gmap string Value) (rest : list Value) (mode : string) :
  block !! "mode" = Some (VString mode) →
  (config ← expandSagemakerModelInferenceExecutionConfig (VMap block :: rest);
   mret (flattenSagemakerModelInferenceExecutionConfig config))
    = Done [VMap {[ "mode" := VString mode ]}].
Proof.
  intros Hmode. simpl. unfold indexString. by rewrite Hmode.
Qed.

Lemma flatten_expand_inference_execution_config_witness :
  (config ← expandSagemakerModelInferenceExecutionConfig
              [VMap {[ "mode" := VString "Direct"; "note" := VString "dropped" ]};
               VMap {[ "mode" := VString "Serial" ]}];
   mret (flattenSagemakerModelInferenceExecutionConfig config))
    = Done [VMap {[ "mode" := VString "Direct" ]}].
Proof.
  apply (flatten_expand_inference_execution_config
           {[ "mode" := VString "Direct"; "note" := VString "dropped" ]}
           [VMap {[ "mode" := VString "Serial" ]}] "Direct").
  vm_compute; reflexivity.
Defined.

(** The keys [flattenContainer] may write. *)
Definition containerEntry (c : sagemaker.ContainerDefinition) (key : string) : option Value :=
  if decide (key = "image") then VString <$> sagemaker.Image c
  else if decide (key = "model_package_name") then VString <$> sagemaker.ModelPackageName c
  else if decide (key = "mode") then VString <$> sagemaker.Mode c
  else if decide (key = "container_hostname") then VString <$> sagemaker.ContainerHostname c
  else if decide (key = "model_data_url") then VString <$> sagemaker.ModelDataUrl c
  else if decide (key = "environment")
       then (λ env, VStringMap (aws.StringValueMap env)) <$> sagemaker.Environment c
  else if decide (key = "image_config")
       then (λ ic, VList [VMap {[ "repository_access_mode" :=
                                     VString (aws.StringValue
                                                (sagemaker.RepositoryAccessMode ic)) ]}])
              <$> sagemaker.ImageConfig_ c
  else None.

Lemma lookup_setIfPresent {A : Type} (key key' : string) (field : option A)
    (value : A → Value) (cfg : gmap string Value) :
  setIfPresent key field value cfg !! key'
    = if decide (key = key')
      then match field with Some x => Some (value x) | None => cfg !! key' end
      else cfg !! key'.
Proof.
  unfold setIfPresent. destruct field as [x|].
  - rewrite lookup_insert. by repeat case_decide.
  - by case_decide.
Qed.

Lemma flattenContainer_cfg (c : sagemaker.ContainerDefinition) :
  ∃ cfg, flattenContainer (Some c) = [VMap cfg]
         ∧ ∀ key, cfg !! key = containerEntry c key.
Proof.
  eexists. split; [reflexivity |].
  intros key. unfold containerEntry.
  rewrite !lookup_setIfPresent, lookup_empty.
  destruct c as [i p m h u e ic]; simpl.
  repeat case_decide; simplify_eq; try done;
    repeat match goal with |- context [match ?x with _ => _ end] => destruct x end;
    done.
Qed.

(** X9. The map [flattenContainer] builds for a non-nil container has an
    entry for a field exactly when the field is non-nil, holding the field's
    value, and has no other entry; nil string pointers are left out rather
    than written as empty strings. *)
Theorem flattenContainer_entries (c : sagemaker.ContainerDefinition) :
  ∃ cfg, flattenContainer (Some c) = [VMap cfg]
         ∧ ∀ key, cfg !! key = containerEntry c key.
Proof. apply flattenContainer_cfg. Qed.

(** X10. [flattenContainers] panics exactly when the list holds a nil
    container: the flattening of a nil container is empty and its first
    element is indexed without a length check. *)
Theorem flattenContainers_panics_iff (containers : list (option sagemaker.ContainerDefinition)) :
  flattenContainers containers = Panics ↔ None ∈ containers.
Proof. apply flattenContainers_Panics. Qed.

Lemma flattenContainers_Some (cs : list sagemaker.ContainerDefinition) :
  flattenContainers (Some <$> cs)
    = Done (concat ((λ c, flattenContainer (Some c)) <$> cs)).
Proof.
  induction cs as [|c cs IH]; simpl; [done |].
  unfold fmap in IH. by rewrite IH.
Qed.

(** X11. On a list of non-nil containers [flattenContainers] completes and
    returns, in order, the one map each container flattens to. *)
Theorem flattenContainers_non_nil (cs : list sagemaker.ContainerDefinition) :
  flattenContainers (Some <$> cs)
    = Done (concat ((λ c, flattenContainer (Some c)) <$> cs)).
Proof. apply flattenContainers_Some. Qed.

Lemma expandContainers_Forall2 (a : list Value) (cs : list sagemaker.ContainerDefinition) :
  expandContainers a = Done cs ↔
    Forall2 (λ v c, ∃ m, v = VMap m ∧ expandContainer m = Done c) a cs.
Proof.
  revert cs. induction a as [|v a IH]; intros cs; simpl.
  - split.
    + intros [= <-]. constructor.
    + intros H. by apply Forall2_nil_inv_l in H as ->.
  - split.
    + intros H. apply bind_Done in H as (m & Hm & H).
      apply bind_Done in H as (c & Hc & H).
      apply bind_Done in H as (cs' & Hcs & H).
      injection H as <-. constructor.
      * exists m. split; [|done]. destruct v; simpl in Hm; by simplify_eq.
      * by apply IH.
    + intros H. apply Forall2_cons_inv_l in H as (c & cs' & (m & -> & Hc) & Hcs & ->).
      apply IH in Hcs. simpl. rewrite Hc. simpl. by rewrite Hcs.
Qed.

(** X12. [expandContainers] expands the blocks one by one and in order: it
    completes with [cs] exactly when every element is a map that
    [expandContainer] expands to the container at the same position. *)
Theorem expandContainers_Done_iff (a : list Value) (cs : list sagemaker.ContainerDefinition) :
  expandContainers a = Done cs ↔
    Forall2 (λ v c, ∃ m, v = VMap m ∧ expandContainer m = Done c) a cs.
Proof. apply expandContainers_Forall2. Qed.

(** X13. What [expandContainers] produced, [flattenContainers] can always
    flatten: no panic, and one block comes out for each block that went in. *)
Theorem flatten_expanded_containers (a : list Value) (cs : list sagemaker.ContainerDefinition) :
  expandContainers a = Done cs →
  ∃ blocks, flattenContainers (Some <$> cs) = Done blocks ∧ length blocks = length a.
Proof.
  intros H. apply expandContainers_Forall2 in H.
  eexists. split; [apply flattenContainers_Some |].
  apply Forall2_length in H. rewrite H.
  clear H. induction cs as [|c cs IH]; [done |].
  rewrite fmap_cons. simpl. f_equal. exact IH.
Qed.

(** The containers the two sample blocks expand to. *)
Definition expandedWithoutImageConfig : sagemaker.ContainerDefinition :=
  {| sagemaker.Image := Some "123456789012.dkr.ecr.us-west-2.amazonaws.com/kmeans:1";
     sagemaker.ModelPackageName :=
       Some "arn:aws:sagemaker:us-west-2:123456789012:model-package/p";
     sagemaker.Mode := Some "SingleModel";
     sagemaker.ContainerHostname := Some "primary";
     sagemaker.ModelDataUrl := Some "s3://bucket/model.tar.gz";
     sagemaker.Environment := Some {[ "STAGE" := Some "prod" ]};
     sagemaker.ImageConfig_ := None |}.

Definition expandedWithImageConfig : sagemaker.ContainerDefinition :=
  {| sagemaker.Image := sagemaker.Image expandedWithoutImageConfig;
     sagemaker.ModelPackageName := sagemaker.ModelPackageName expandedWithoutImageConfig;
     sagemaker.Mode := sagemaker.Mode expandedWithoutImageConfig;
     sagemaker.ContainerHostname := sagemaker.ContainerHostname expandedWithoutImageConfig;
     sagemaker.ModelDataUrl := sagemaker.ModelDataUrl expandedWithoutImageConfig;
     sagemaker.Environment := sagemaker.Environment expandedWithoutImageConfig;
     sagemaker.ImageConfig_ := Some {| sagemaker.RepositoryAccessMode := Some "Vpc" |} |}.

Lemma expand_sample_blocks :
  expandContainers [VMap containerWithImageConfig; VMap containerWithoutImageConfig]
    = Done [expandedWithImageConfig; expandedWithoutImageConfig].
Proof. vm_compute. reflexivity. Qed.

Lemma flatten_expanded_containers_witness :
  expandContainers [VMap containerWithImageConfig; VMap containerWithoutImageConfig]
    = Done [expandedWithImageConfig; expandedWithoutImageConfig]
  ∧ ∃ blocks,
      flattenContainers (Some <$> [expandedWithImageConfig; expandedWithoutImageConfig])
        = Done blocks
      ∧ length blocks = 2.
Proof.
  split; [exact expand_sample_blocks |].
  exact (flatten_expanded_containers _ _ expand_sample_blocks).
Defined.

Lemma flattenContainer_lookup (c : sagemaker.ContainerDefinition) (cfg : gmap string Value)
    (key : string) :
  flattenContainer (Some c) = [VMap cfg] → cfg !! key = containerEntry c key.
Proof.
  intros H. destruct (flattenContainer_cfg c) as (cfg' & H' & Hkeys).
  rewrite H in H'. injection H' as ->. apply Hkeys.
Qed.

Lemma optionalString_of_field (cfg : gmap string Value) (key : string) (field : option string) :
  cfg !! key = VString <$> field →
  optionalString cfg key
    = Done (match field with
            | Some s => if decide (s ≠ "") then Some s else None
            | None => None
            end).
Proof.
  intros H. unfold optionalString. rewrite H. by destruct field.
Qed.

(** X14. The two directions do not compose at the level of Go types: the
    environment that [flattenContainer] writes is a [map[string]string], and
    [expandContainer] asserts a [map[string]interface{}], so expanding the
    flattened map of any container that has an environment panics. *)
Theorem expand_flattened_environment_panics (c : sagemaker.ContainerDefinition)
    (env : gmap string (option string)) :
  sagemaker.Environment c = Some env →
  ∃ cfg, flattenContainer (Some c) = [VMap cfg] ∧ expandContainer cfg = Panics.
Proof.
  intros Henv. destruct (flattenContainer_cfg c) as (cfg & Hflat & _).
  exists cfg. split; [done |]. unfold expandContainer.
  rewrite (optionalString_of_field cfg "image" (sagemaker.Image c))
    by (by rewrite (flattenContainer_lookup c cfg _ Hflat)).
  rewrite (optionalString_of_field cfg "model_package_name" (sagemaker.ModelPackageName c))
    by (by rewrite (flattenContainer_lookup c cfg _ Hflat)).
  rewrite (optionalString_of_field cfg "mode" (sagemaker.Mode c))
    by (by rewrite (flattenContainer_lookup c cfg _ Hflat)).
  rewrite (optionalString_of_field cfg "container_hostname" (sagemaker.ContainerHostname c))
    by (by rewrite (flattenContainer_lookup c cfg _ Hflat)).
  rewrite (optionalString_of_field cfg "model_data_url" (sagemaker.ModelDataUrl c))
    by (by rewrite (flattenContainer_lookup c cfg _ Hflat)).
  rewrite (flattenContainer_lookup c cfg "environment" Hflat).
  unfold containerEntry. simpl. by rewrite Henv.
Qed.

Lemma expand_flattened_environment_panics_witness :
  sagemaker.Environment expandedWithoutImageConfig = Some {[ "STAGE" := Some "prod" ]}
  ∧ ∃ cfg, flattenContainer (Some expandedWithoutImageConfig) = [VMap cfg]
           ∧ expandContainer cfg = Panics.
Proof.
  split; [reflexivity |].
  exact (expand_flattened_environment_panics expandedWithoutImageConfig
           {[ "STAGE" := Some "prod" ]} eq_refl).
Defined.

(** A container as the API would report one that this resource created
    without an environment: no string field points to the empty string, and
    an image configuration carries its access mode. *)
Definition withoutEnvironment (c : sagemaker.ContainerDefinition) : Prop :=
  sagemaker.Image c ≠ Some "" ∧ sagemaker.ModelPackageName c ≠ Some ""
  ∧ sagemaker.Mode c ≠ Some "" ∧ sagemaker.ContainerHostname c ≠ Some ""
  ∧ sagemaker.ModelDataUrl c ≠ Some ""
  ∧ sagemaker.Environment c = None
  ∧ ∀ ic, sagemaker.ImageConfig_ c = Some ic → sagemaker.RepositoryAccessMode ic ≠ None.

Lemma nonempty_field (field : option string) :
  field ≠ Some "" →
  match field with
  | Some s => if decide (s ≠ "") then Some s else None
  | None => None
  end = field.
Proof.
  intros H. destruct field as [s|]; [|done].
  destruct (decide (s ≠ "")) as [|Hs]; [done |].
  exfalso. apply H. f_equal. by destruct (decide (s = "")).
Qed.

(** X15. For a container without an environment, whose string fields are
    nil or non-empty and whose image configuration, if any, has an access
    mode, expanding the map that [flattenContainer] built gives the same
    container back. *)
Theorem expand_flatten_container (c : sagemaker.ContainerDefinition) :
  withoutEnvironment c →
  ∃ cfg, flattenContainer (Some c) = [VMap cfg] ∧ expandContainer cfg = Done c.
Proof.
  intros (Hi & Hp & Hm & Hh & Hu & Henv & Hic).
  destruct (flattenContainer_cfg c) as (cfg & Hflat & _).
  exists cfg. split; [done |]. unfold expandContainer.
  rewrite (optionalString_of_field cfg "image" (sagemaker.Image c))
    by (by rewrite (flattenContainer_lookup c cfg _ Hflat)).
  rewrite (optionalString_of_field cfg "model_package_name" (sagemaker.ModelPackageName c))
    by (by rewrite (flattenContainer_lookup c cfg _ Hflat)).
  rewrite (optionalString_of_field cfg "mode" (sagemaker.Mode c))
    by (by rewrite (flattenContainer_lookup c cfg _ Hflat)).
  rewrite (optionalString_of_field cfg "container_hostname" (sagemaker.ContainerHostname c))
    by (by rewrite (flattenContainer_lookup c cfg _ Hflat)).
  rewrite (optionalString_of_field cfg "model_data_url" (sagemaker.ModelDataUrl c))
    by (by rewrite (flattenContainer_lookup c cfg _ Hflat)).
  rewrite (flattenContainer_lookup c cfg "environment" Hflat).
  rewrite (flattenContainer_lookup c cfg "image_config" Hflat).
  rewrite !nonempty_field by done.
  unfold containerEntry. simpl. rewrite Henv. simpl.
  clear Hflat. destruct c as [i p m h u e ic]; simpl in *. subst e.
  destruct ic as [[r]|]; simpl.
  - unfold indexString. rewrite lookup_singleton_eq. simpl.
    destruct r as [r|]; [done |]. by destruct (Hic _ eq_refl).
  - done.
Qed.

(** A container with an image configuration and no environment. *)
Definition platformContainer : sagemaker.ContainerDefinition :=
  {| sagemaker.Image := Some "registry/kmeans:1"; sagemaker.ModelPackageName := None;
     sagemaker.Mode := Some "SingleModel"; sagemaker.ContainerHostname := None;
     sagemaker.ModelDataUrl := None; sagemaker.Environment := None;
     sagemaker.ImageConfig_ := Some {| sagemaker.RepositoryAccessMode := Some "Platform" |} |}.

Lemma expand_flatten_container_witness :
  withoutEnvironment platformContainer
  ∧ ∃ cfg, flattenContainer (Some platformContainer) = [VMap cfg]
           ∧ expandContainer cfg = Done platformContainer.
Proof.
  assert (H : withoutEnvironment platformContainer).
  { unfold withoutEnvironment; simpl. split_and!; try done. by intros ic [= <-]. }
  split; [exact H |].
  exact (expand_flatten_container platformContainer H).
Defined.

(** *** The read handler on sample connections *)

(** The read handler over a schema that rejects what [rejects] says, with
    the tag helpers of a provider that has no tag configuration. *)
Definition readWith (rejects : string → Value → error) (tags : KeyValueTags * error)
    (d : ResourceData) (meta : AWSClient (DefaultTagsConfig := unit) (IgnoreTagsConfig := unit))
  : go (ResourceData * error) :=
  resourceAwsSagemakerModelRead rejects (λ _ _, tags) id (λ _, id) (λ _, id)
    (λ _, VSet []) d meta.

Definition liveModel : sagemaker.DescribeModelOutput :=
  {| sagemaker.ModelArn := Some "arn:aws:sagemaker:us-west-2:123456789012:model/kmeans";
     sagemaker.ModelName := Some "kmeans";
     sagemaker.ExecutionRoleArn := Some "arn:aws:iam::123456789012:role/sagemaker";
     sagemaker.EnableNetworkIsolation := Some false;
     sagemaker.PrimaryContainer := Some platformContainer;
     sagemaker.Containers := [];
     sagemaker.VpcConfig_ := None;
     sagemaker.InferenceExecutionConfig_ := None |}.

Definition modelLive : AWSClient (DefaultTagsConfig := unit) (IgnoreTagsConfig := unit) :=
  {| DescribeModel := λ _, (Some liveModel, None);
     defaultTagsConfig := ();
     ignoreTagsConfig := () |}.

Definition modelThrottled : AWSClient (DefaultTagsConfig := unit) (IgnoreTagsConfig := unit) :=
  {| DescribeModel := λ _, (None, Some (ErrAws "ThrottlingException" "Rate exceeded"));
     defaultTagsConfig := ();
     ignoreTagsConfig := () |}.

(** A schema that rejects the write of [arn], wants lists under the block
    keys and string maps under the tag keys, and accepts everything else. *)
Definition rejectsArn (key : string) (value : Value) : error :=
  if decide (key = "arn") then Some (ErrNew "arn: invalid type")
  else if decide (key ∈ ["primary_container"; "container"; "vpc_config";
                         "inference_execution_config"])
  then match value with
       | VList _ => None
       | _ => Some (ErrNew (key ++ ": expected a list"))
       end
  else if decide (key ∈ ["tags"; "tags_all"])
  then match value with
       | VStringMap _ => None
       | _ => Some (ErrNew (key ++ ": expected a map of strings"))
       end
  else None.

(** A closed instance of X16: the model is gone and the ID is cleared. *)
Lemma read_keeps_id_witness :
  readWith (λ _ _, None) (∅, None) storedModel modelGone
    = Done ({| Id := ""; attributes := attributes storedModel |}, None)
  ∧ (Id {| Id := ""; attributes := attributes storedModel |} = Id storedModel
     ∨ (Id {| Id := ""; attributes := attributes storedModel |} = ""
        ∧ (None : error) = None
        ∧ ∃ model e, DescribeModel modelGone (Id storedModel) = (model, Some e)
                     ∧ isAWSErr (Some e) "ValidationException" "" = true)).
Proof.
  assert (H : readWith (λ _ _, None) (∅, None) storedModel modelGone
              = Done ({| Id := ""; attributes := attributes storedModel |}, None))
    by (vm_compute; reflexivity).
  split; [exact H |].
  exact (read_keeps_id (λ _ _, None) (λ _ _, (∅, None)) id (λ _, id) (λ _, id) (λ _, VSet [])
           storedModel modelGone _ _ H).
Defined.

(** A closed instance of X17: a throttled call comes back as the
    throttling error under the reading message. *)
Lemma read_errors_are_wrapped_witness :
  readWith (λ _ _, None) (∅, None) storedModel modelThrottled
    = Done (storedModel,
            Some (ErrWrap "error reading Sagemaker model kmeans: "
                    (ErrAws "ThrottlingException" "Rate exceeded")))
  ∧ ∃ output inner,
      DescribeModel modelThrottled (Id storedModel) = (output, Some inner)
      ∧ isAWSErr (Some inner) "ValidationException" "" = false
      ∧ ErrWrap "error reading Sagemaker model kmeans: "
          (ErrAws "ThrottlingException" "Rate exceeded")
        = ErrWrap ("error reading Sagemaker model " ++ Id storedModel ++ ": ") inner.
Proof.
  assert (H : readWith (λ _ _, None) (∅, None) storedModel modelThrottled
              = Done (storedModel,
                      Some (ErrWrap "error reading Sagemaker model kmeans: "
                              (ErrAws "ThrottlingException" "Rate exceeded"))))
    by (vm_compute; reflexivity).
  split; [exact H |].
  destruct (read_errors_are_wrapped (λ _ _, None) (λ _ _, (∅, None)) id (λ _, id) (λ _, id)
              (λ _, VSet []) storedModel modelThrottled _ _ H)
    as [Hdescribe | [(model & key & value & inner & Hd & _) | (model & tags & inner & Hd & _)]].
  - exact Hdescribe.
  - discriminate Hd.
  - discriminate Hd.
Defined.

(** A closed instance of X18: the schema rejects [arn] and checks the
    types of the six checked writes, and the read succeeds. *)
Lemma read_success_witness :
  rejectsArn "arn" (VString "arn:aws:sagemaker:us-west-2:123456789012:model/kmeans")
    = Some (ErrNew "arn: invalid type")
  ∧ rejectsArn "container" (VString "not a list")
    = Some (ErrNew "container: expected a list")
  ∧ ∃ d', readWith rejectsArn ({[ "team" := "ml" ]}, None) storedModel modelLive
            = Done (d', None)
          ∧ Id d' = "kmeans"
          ∧ attributes d' !! "primary_container"
              = Some (VList (flattenContainer (Some platformContainer)))
          ∧ attributes d' !! "container" = Some (VList [])
          ∧ attributes d' !! "vpc_config" = Some (VList [])
          ∧ attributes d' !! "inference_execution_config" = Some (VList [])
          ∧ attributes d' !! "tags" = Some (VStringMap {[ "team" := "ml" ]})
          ∧ attributes d' !! "tags_all" = Some (VStringMap {[ "team" := "ml" ]}).
Proof.
  split; [vm_compute; reflexivity |].
  split; [vm_compute; reflexivity |].
  destruct (read_success rejectsArn (λ _ _, ({[ "team" := "ml" ]}, None)) id (λ _, id)
              (λ _, id) (λ _, VSet []) storedModel modelLive liveModel [] {[ "team" := "ml" ]}
              eq_refl eq_refl eq_refl eq_refl eq_refl eq_refl eq_refl eq_refl eq_refl)
    as (d' & Hrun & HId & Hp & Hc & Hv & Hi & Ht & Ha).
  exists d'. split_and!; done.
Defined.

(** ** The acceptance-test checks *)

Module terraform.
(** [terraform.InstanceState] and [terraform.ResourceState], as far as the
    checks read them; [Primary] is a pointer. *)
Record InstanceState : Type := {
  ID : string;
  Attributes : gmap string string
}.

Record ResourceState : Type := {
  Type_ : string;
  Primary : option InstanceState
}.

(** [rs.Primary.Attributes[key]]: a missing key reads as the empty string. *)
Definition attribute (primary : InstanceState) (key : string) : string :=
  default "" (Attributes primary !! key).
End terraform.

Module tfawserr.
(** [tfawserr.ErrMessageContains(err, code, message)]. *)
Definition ErrMessageContains (err : error) (code message : string) : bool :=
  match err with
  | Some e => awsErrMatches e code message
  | None => false
  end.
End tfawserr.

Section AppMeshChecks.
Context {VirtualServiceData : Type}.

Record DescribeVirtualServiceOutput : Type := {
  VirtualService : option VirtualServiceData
}.

(** [conn.DescribeVirtualService] on the mesh name and the virtual service
    name of the input, in the state the remote API is in during the check. *)
Variable DescribeVirtualService :
  option string → option string → option DescribeVirtualServiceOutput * error.

Definition describeResource (primary : terraform.InstanceState)
  : option DescribeVirtualServiceOutput * error :=
  DescribeVirtualService (aws.String (terraform.attribute primary "mesh_name"))
                         (aws.String (terraform.attribute primary "name")).

(** [testAccCheckAppmeshVirtualServiceDestroy]; [visit] lists the resources
    of the root module in the order the [range] over the map meets them,
    which Go leaves unspecified. *)
Fixpoint testAccCheckAppmeshVirtualServiceDestroy (visit : list terraform.ResourceState)
  : go error :=
  match visit with
  | [] => Done None
  | rs :: rest =>
      if decide (terraform.Type_ rs ≠ "aws_appmesh_virtual_service")
      then testAccCheckAppmeshVirtualServiceDestroy rest
      else
        match terraform.Primary rs with
        | None => Panics
        | Some primary =>
            let err := (describeResource primary).2 in
            if tfawserr.ErrMessageContains err "NotFoundException" ""
            then testAccCheckAppmeshVirtualServiceDestroy rest
            else match err with
                 | Some e => Done (Some e)
                 | None => Done (Some (ErrNew "still exist."))
                 end
        end
  end.

(** [testAccCheckAppmeshVirtualServiceExists(name, v)] applied to a state;
    the first component of the result is what [*v] holds afterwards. *)
Definition testAccCheckAppmeshVirtualServiceExists (name : string) (v : VirtualServiceData)
    (resources : gmap string terraform.ResourceState) : go (VirtualServiceData * error) :=
  match resources !! name with
  | None => Done (v, Some (ErrNew ("Not found: " ++ name)))
  | Some rs =>
      match terraform.Primary rs with
      | None => Panics
      | Some primary =>
          if decide (terraform.ID primary = "")
          then Done (v, Some (ErrNew "No ID is set"))
          else
            let '(resp, err) := describeResource primary in
            match err with
            | Some e => Done (v, Some e)
            | None =>
                match resp with
                | None => Panics
                | Some resp =>
                    match VirtualService resp with
                    | None => Panics
                    | Some vs => Done (vs, None)
                    end
                end
            end
      end
  end.

(** The API no longer knows the virtual service a resource stands for. *)
Definition virtualServiceGone (rs : terraform.ResourceState) : Prop :=
  ∃ primary, terraform.Primary rs = Some primary
    ∧ tfawserr.ErrMessageContains (describeResource primary).2 "NotFoundException" "" = true.

Lemma appmesh_destroy_list (visit : list terraform.ResourceState) :
  testAccCheckAppmeshVirtualServiceDestroy visit = Done None ↔
    Forall (λ rs, terraform.Type_ rs = "aws_appmesh_virtual_service" → virtualServiceGone rs)
           visit.
Proof.
  induction visit as [|rs rest IH]; simpl.
  - split; [constructor | done].
  - rewrite Forall_cons. unfold virtualServiceGone.
    destruct (decide (terraform.Type_ rs ≠ "aws_appmesh_virtual_service")) as [Hty | Hty].
    + rewrite IH. split; [intros ?; split; [done | done] | by intros [_ ?]].
    + apply dec_stable in Hty.
      destruct (terraform.Primary rs) as [primary|].
      * destruct (tfawserr.ErrMessageContains _ _ _) eqn:Hnf.
        -- rewrite IH. split; [intros ?; split; [eauto | done] | by intros [_ ?]].
        -- split.
           ++ by destruct (describeResource primary).2.
           ++ intros [H _]. destruct (H Hty) as (p & [= <-] & Hp). congruence.
      * split; [done |]. intros [H _]. by destruct (H Hty) as (p & [= ] & _).
Qed.

(** X20. The destroy check passes exactly when the API reports
    [NotFoundException] for every [aws_appmesh_virtual_service] resource of
    the state, whatever the order in which the map is ranged over; resources
    of other types are not looked at. *)
Theorem appmesh_destroy_passes_iff (resources : gmap string terraform.ResourceState)
    (visit : list (string * terraform.ResourceState)) :
  visit ≡ₚ map_to_list resources →
  (testAccCheckAppmeshVirtualServiceDestroy visit.*2 = Done None ↔
     ∀ name rs, resources !! name = Some rs →
       terraform.Type_ rs = "aws_appmesh_virtual_service" → virtualServiceGone rs).
Proof.
  intros Hperm. rewrite appmesh_destroy_list, Forall_fmap, Hperm.
  rewrite Forall_forall. split.
  - intros H name rs Hrs. apply (H (name, rs)). by apply elem_of_map_to_list.
  - intros H [name rs] Hin. simpl. apply (H name). by apply elem_of_map_to_list.
Qed.

(** X21. The exists check succeeds exactly when the state has the named
    resource with a non-empty ID and the API describes its virtual service;
    [*v] then holds the described service. *)
Theorem appmesh_exists_passes_iff (name : string) (v v' : VirtualServiceData)
    (resources : gmap string terraform.ResourceState) :
  testAccCheckAppmeshVirtualServiceExists name v resources = Done (v', None) ↔
    ∃ rs primary resp,
      resources !! name = Some rs ∧ terraform.Primary rs = Some primary
      ∧ terraform.ID primary ≠ ""
      ∧ describeResource primary = (Some resp, None)
      ∧ VirtualService resp = Some v'.
Proof.
  unfold testAccCheckAppmeshVirtualServiceExists. split.
  - intros H. repeat case_match; simplify_eq. eauto 10.
  - intros (rs & primary & resp & -> & -> & Hid & -> & ->).
    by destruct (decide (terraform.ID primary = "")).
Qed.

(** X22. When the exists check returns an error, it has not written to
    [*v]. *)
Theorem appmesh_exists_failure_keeps_target (name : string) (v v' : VirtualServiceData)
    (resources : gmap string terraform.ResourceState) (e : Err) :
  testAccCheckAppmeshVirtualServiceExists name v resources = Done (v', Some e) → v' = v.
Proof.
  unfold testAccCheckAppmeshVirtualServiceExists.
  repeat case_match; intros; by simplify_eq.
Qed.

End AppMeshChecks.

Section EksChecks.
Context {OidcIdentityProviderConfig : Type}.

(** The classification of non-nil errors by [tfresource.NotFound], the
    parser of resource IDs and the finder: all three live outside the files
    studied. *)
Variable notFoundError : Err → bool.
Variable IdentityProviderConfigParseResourceID : string → string * string * error.
Variable FindOIDCIdentityProviderConfigByClusterNameAndConfigName :
  string → string → option OidcIdentityProviderConfig * error.

(** [testAccCheckAWSEksIdentityProviderConfigDestroy]; [visit] lists the
    resources in the order the [range] over the map meets them. *)
Fixpoint testAccCheckAWSEksIdentityProviderConfigDestroy (visit : list terraform.ResourceState)
  : go error :=
  match visit with
  | [] => Done None
  | rs :: rest =>
      if decide (terraform.Type_ rs ≠ "aws_eks_identity_provider_config")
      then testAccCheckAWSEksIdentityProviderConfigDestroy rest
      else
        match terraform.Primary rs with
        | None => Panics
        | Some primary =>
            let '(clusterName, configName, err) :=
              IdentityProviderConfigParseResourceID (terraform.ID primary) in
            match err with
            | Some e => Done (Some e)
            | None =>
                let err :=
                  (FindOIDCIdentityProviderConfigByClusterNameAndConfigName
                     clusterName configName).2 in
                if NotFound notFoundError err
                then testAccCheckAWSEksIdentityProviderConfigDestroy rest
                else match err with
                     | Some e => Done (Some e)
                     | None =>
                         Done (Some (ErrNew ("EKS Identity Profile Config "
                                               ++ terraform.ID primary ++ " still exists")))
                     end
            end
        end
  end.

(** [testAccCheckAWSEksIdentityProviderConfigExists(ctx, resourceName,
    config)] applied to a state; the first component of the result is what
    [*config] holds afterwards. *)
Definition testAccCheckAWSEksIdentityProviderConfigExists (resourceName : string)
    (config : OidcIdentityProviderConfig) (resources : gmap string terraform.ResourceState)
  : go (OidcIdentityProviderConfig * error) :=
  match resources !! resourceName with
  | None => Done (config, Some (ErrNew ("Not found: " ++ resourceName)))
  | Some rs =>
      match terraform.Primary rs with
      | None => Panics
      | Some primary =>
          if decide (terraform.ID primary = "")
          then Done (config, Some (ErrNew "No EKS Identity Profile Config ID is set"))
          else
            let '(clusterName, configName, err) :=
              IdentityProviderConfigParseResourceID (terraform.ID primary) in
            match err with
            | Some e => Done (config, Some e)
            | None =>
                let '(output, err) :=
                  FindOIDCIdentityProviderConfigByClusterNameAndConfigName
                    clusterName configName in
                match err with
                | Some e => Done (config, Some e)
                | None =>
                    match output with
                    | None => Panics
                    | Some o => Done (o, None)
                    end
                end
            end
      end
  end.

(** The ID of a resource parses and the finder reports its configuration
    as not found. *)
Definition identityProviderConfigGone (rs : terraform.ResourceState) : Prop :=
  ∃ primary clusterName configName,
    terraform.Primary rs = Some primary
    ∧ IdentityProviderConfigParseResourceID (terraform.ID primary)
        = (clusterName, configName, None)
    ∧ NotFound notFoundError
        (FindOIDCIdentityProviderConfigByClusterNameAndConfigName clusterName configName).2
      = true.

Lemma eks_destroy_list (visit : list terraform.ResourceState) :
  testAccCheckAWSEksIdentityProviderConfigDestroy visit = Done None ↔
    Forall (λ rs, terraform.Type_ rs = "aws_eks_identity_provider_config" →
                  identityProviderConfigGone rs) visit.
Proof.
  induction visit as [|rs rest IH]; simpl.
  - split; [constructor | done].
  - rewrite Forall_cons. unfold identityProviderConfigGone.
    destruct (decide (terraform.Type_ rs ≠ "aws_eks_identity_provider_config")) as [Hty | Hty].
    + rewrite IH. split; [intros ?; split; [done | done] | by intros [_ ?]].
    + apply dec_stable in Hty.
      destruct (terraform.Primary rs) as [primary|].
      * destruct (IdentityProviderConfigParseResourceID (terraform.ID primary))
          as [[clusterName configName] [e|]] eqn:Hparse.
        -- split; [done |]. intros [H _].
           destruct (H Hty) as (p & c & n & [= <-] & Hp & _). congruence.
        -- destruct (NotFound notFoundError _) eqn:Hnf.
           ++ rewrite IH. split; [|by intros [_ ?]].
              intros ?. split; [|done]. intros _. by exists primary, clusterName, configName.
           ++ split.
              ** by destruct (FindOIDCIdentityProviderConfigByClusterNameAndConfigName _ _).2.
              ** intros [H _]. destruct (H Hty) as (p & c & n & [= <-] & Hp & Hgone).
                 rewrite Hparse in Hp. injection Hp as <- <-. congruence.
      * split; [done |]. intros [H _]. by destruct (H Hty) as (p & c & n & [= ] & _).
Qed.

(** X23. The destroy check passes exactly when, for every
    [aws_eks_identity_provider_config] resource of the state, the ID parses
    and the finder reports not-found, whatever the order in which the map is
    ranged over. *)
Theorem eks_destroy_passes_iff (resources : gmap string terraform.ResourceState)
    (visit : list (string * terraform.ResourceState)) :
  visit ≡ₚ map_to_list resources →
  (testAccCheckAWSEksIdentityProviderConfigDestroy visit.*2 = Done None ↔
     ∀ name rs, resources !! name = Some rs →
       terraform.Type_ rs = "aws_eks_identity_provider_config" →
       identityProviderConfigGone rs).
Proof.
  intros Hperm. rewrite eks_destroy_list, Forall_fmap, Hperm.
  rewrite Forall_forall. split.
  - intros H name rs Hrs. apply (H (name, rs)). by apply elem_of_map_to_list.
  - intros H [name rs] Hin. simpl. apply (H name). by apply elem_of_map_to_list.
Qed.

(** X24. The exists check succeeds exactly when the state has the named
    resource with a non-empty ID that parses and the finder returns its
    configuration; [*config] then holds that configuration. *)
Theorem eks_exists_passes_iff (resourceName : string)
    (config config' : OidcIdentityProviderConfig)
    (resources : gmap string terraform.ResourceState) :
  testAccCheckAWSEksIdentityProviderConfigExists resourceName config resources
    = Done (config', None) ↔
    ∃ rs primary clusterName configName,
      resources !! resourceName = Some rs ∧ terraform.Primary rs = Some primary
      ∧ terraform.ID primary ≠ ""
      ∧ IdentityProviderConfigParseResourceID (terraform.ID primary)
          = (clusterName, configName, None)
      ∧ FindOIDCIdentityProviderConfigByClusterNameAndConfigName clusterName configName
          = (Some config', None).
Proof.
  unfold testAccCheckAWSEksIdentityProviderConfigExists. split.
  - intros H. repeat case_match; simplify_eq. eauto 10.
  - intros (rs & primary & clusterName & configName & -> & -> & Hid & -> & ->).
    by destruct (decide (terraform.ID primary = "")).
Qed.

End EksChecks.

(** *** The checks on a sample state *)

Definition meshResource : terraform.ResourceState :=
  {| terraform.Type_ := "aws_appmesh_mesh";
     terraform.Primary := Some {| terraform.ID := "mesh-1";
                                  terraform.Attributes := {[ "name" := "mesh-1" ]} |} |}.

Definition virtualServiceResource : terraform.ResourceState :=
  {| terraform.Type_ := "aws_appmesh_virtual_service";
     terraform.Primary :=
       Some {| terraform.ID := "vs-1";
               terraform.Attributes :=
                 {[ "mesh_name" := "mesh-1"; "name" := "svc.mesh.local" ]} |} |}.

Definition sampleState : gmap string terraform.ResourceState :=
  {[ "aws_appmesh_mesh.foo" := meshResource;
     "aws_appmesh_virtual_service.test" := virtualServiceResource ]}.

(** An API on which every virtual service has been deleted. *)
Definition allDeleted (_ _ : option string)
  : option (DescribeVirtualServiceOutput (VirtualServiceData := string)) * error :=
  (None, Some (ErrAws "NotFoundException" "virtual service not found")).

(** An API that is down. *)
Definition unavailable (_ _ : option string)
  : option (DescribeVirtualServiceOutput (VirtualServiceData := string)) * error :=
  (None, Some (ErrAws "InternalServerErrorException" "try again")).

(** A closed instance of X20, in the order of the map's listing: the
    check passes, so every virtual service of the state is gone. *)
Lemma appmesh_destroy_passes_iff_witness :
  map_to_list sampleState ≡ₚ map_to_list sampleState
  ∧ testAccCheckAppmeshVirtualServiceDestroy allDeleted (map_to_list sampleState).*2
      = Done None
  ∧ ∀ name rs, sampleState !! name = Some rs →
      terraform.Type_ rs = "aws_appmesh_virtual_service" →
      virtualServiceGone allDeleted rs.
Proof.
  split; [reflexivity |].
  assert (H : testAccCheckAppmeshVirtualServiceDestroy allDeleted
                (map_to_list sampleState).*2 = Done None) by (vm_compute; reflexivity).
  split; [exact H |].
  exact (proj1 (appmesh_destroy_passes_iff allDeleted sampleState (map_to_list sampleState)
                  (reflexivity _)) H).
Defined.

(** A closed instance of X22: the API is down and [*v] keeps its value. *)
Lemma appmesh_exists_failure_keeps_target_witness :
  testAccCheckAppmeshVirtualServiceExists unavailable "aws_appmesh_virtual_service.test"
      "before" sampleState
    = Done ("before", Some (ErrAws "InternalServerErrorException" "try again"))
  ∧ "before" = "before".
Proof.
  assert (H : testAccCheckAppmeshVirtualServiceExists unavailable
                "aws_appmesh_virtual_service.test" "before" sampleState
              = Done ("before", Some (ErrAws "InternalServerErrorException" "try again")))
    by (vm_compute; reflexivity).
  split; [exact H |].
  exact (appmesh_exists_failure_keeps_target unavailable _ _ _ _ _ H).
Defined.

Definition identityProviderConfigResource : terraform.ResourceState :=
  {| terraform.Type_ := "aws_eks_identity_provider_config";
     terraform.Primary := Some {| terraform.ID := "cluster:oidc"; terraform.Attributes := ∅ |} |}.

Definition eksState : gmap string terraform.ResourceState :=
  {[ "aws_eks_identity_provider_config.test" := identityProviderConfigResource ]}.

(** A closed instance of X23: the check passes, so the configuration of
    every resource of the state is gone. *)
Lemma eks_destroy_passes_iff_witness :
  map_to_list eksState ≡ₚ map_to_list eksState
  ∧ testAccCheckAWSEksIdentityProviderConfigDestroy (OidcIdentityProviderConfig := string)
      tfresource.isNotFoundError (λ _, ("cluster", "oidc", None))
      (λ _ _, (None, Some (ErrNotFound "gone"))) (map_to_list eksState).*2 = Done None
  ∧ ∀ name rs, eksState !! name = Some rs →
      terraform.Type_ rs = "aws_eks_identity_provider_config" →
      identityProviderConfigGone (OidcIdentityProviderConfig := string)
        tfresource.isNotFoundError (λ _, ("cluster", "oidc", None))
        (λ _ _, (None, Some (ErrNotFound "gone"))) rs.
Proof.
  split; [reflexivity |].
  assert (H : testAccCheckAWSEksIdentityProviderConfigDestroy
                (OidcIdentityProviderConfig := string)
                tfresource.isNotFoundError (λ _, ("cluster", "oidc", None))
                (λ _ _, (None, Some (ErrNotFound "gone"))) (map_to_list eksState).*2
              = Done None) by (vm_compute; reflexivity).
  split; [exact H |].
  exact (proj1 (eks_destroy_passes_iff (OidcIdentityProviderConfig := string)
                  tfresource.isNotFoundError (λ _, ("cluster", "oidc", None))
                  (λ _ _, (None, Some (ErrNotFound "gone"))) eksState (map_to_list eksState)
                  (reflexivity _)) H).
Defined.

(** ** The VPC configuration *)

(** The type assertion [v.( *schema.Set)]. *)
Definition assertSet (v : Value) : go (list string) :=
  match v with VSet elems => Done elems | _ => Panics end.

(** [m[key].( *schema.Set)]: a missing key yields the nil interface, whose
    assertion panics. *)
Definition indexSet (m : gmap string Value) (key : string) : go (list string) :=
  match m !! key with
  | Some v => assertSet v
  | None => Panics
  end.

Section VpcConfig.
(** [expandStringSet] and [flattenStringSet] convert between a
    [*schema.Set] of strings and a [[]*string]; both live in the provider's
    structure helpers, outside the files studied. *)
Variable expandStringSet : list string → list (option string).
Variable flattenStringSet : list (option string) → Value.

Definition expandSageMakerVpcConfigRequest (l : list Value) : go (option sagemaker.VpcConfig) :=
  match l with
  | [] => mret None
  | first :: _ =>
      m ← assertMap first;
      securityGroupIds ← indexSet m "security_group_ids";
      subnets ← indexSet m "subnets";
      mret (Some {| sagemaker.SecurityGroupIds := expandStringSet securityGroupIds;
                    sagemaker.Subnets := expandStringSet subnets |})
  end.

(** The set helpers take a list to a set and back to the same list. *)
Definition setRoundTrips (l : list (option string)) : Prop :=
  ∃ elems, flattenStringSet l = VSet elems ∧ expandStringSet elems = l.

(** X25. Expanding a flattened VPC configuration gives the configuration
    back, nil for nil, provided the set helpers take its security groups and
    its subnets to a set and back unchanged. *)
Theorem expand_flatten_vpc_config (vpcConfig : option sagemaker.VpcConfig) :
  (∀ c, vpcConfig = Some c →
        setRoundTrips (sagemaker.SecurityGroupIds c) ∧ setRoundTrips (sagemaker.Subnets c)) →
  expandSageMakerVpcConfigRequest
      (flattenSageMakerVpcConfigResponse flattenStringSet vpcConfig)
    = Done vpcConfig.
Proof.
  intros H. destruct vpcConfig as [c|]; simpl; [|done].
  destruct (H c eq_refl) as [(sg & Hsg & Hsg') (sn & Hsn & Hsn')].
  unfold indexSet. simplify_map_eq. rewrite Hsg, Hsn. simpl.
  rewrite Hsg', Hsn'. by destruct c.
Qed.

End VpcConfig.

(** Set helpers for lists without nil entries, kept in list order. *)
Definition boxAll (elems : list string) : list (option string) := Some <$> elems.
Definition unboxAll (l : list (option string)) : Value := VSet (omap id l).

Lemma expand_flatten_vpc_config_witness :
  (∀ c, Some {| sagemaker.SecurityGroupIds := [Some "sg-1"];
                sagemaker.Subnets := [Some "subnet-a"; Some "subnet-b"] |} = Some c →
        setRoundTrips boxAll unboxAll (sagemaker.SecurityGroupIds c)
        ∧ setRoundTrips boxAll unboxAll (sagemaker.Subnets c))
  ∧ expandSageMakerVpcConfigRequest boxAll
      (flattenSageMakerVpcConfigResponse unboxAll
         (Some {| sagemaker.SecurityGroupIds := [Some "sg-1"];
                  sagemaker.Subnets := [Some "subnet-a"; Some "subnet-b"] |}))
    = Done (Some {| sagemaker.SecurityGroupIds := [Some "sg-1"];
                    sagemaker.Subnets := [Some "subnet-a"; Some "subnet-b"] |}).
Proof.
  assert (H : ∀ c, Some {| sagemaker.SecurityGroupIds := [Some "sg-1"];
                           sagemaker.Subnets := [Some "subnet-a"; Some "subnet-b"] |} = Some c →
                   setRoundTrips boxAll unboxAll (sagemaker.SecurityGroupIds c)
                   ∧ setRoundTrips boxAll unboxAll (sagemaker.Subnets c)).
  { intros c [= <-]. split; eexists; split; reflexivity. }
  split; [exact H |].
  exact (expand_flatten_vpc_config boxAll unboxAll _ H).
Defined.
